(** * Certificate generator (src/app.py): model and verification

    The development follows the source file top to bottom:
    - [PyStr]: the operations of Python's [str] that the program uses
      ([lower], [upper], [in], [s[:n]], concatenation);
    - [Clock] and [Uuid]: [datetime.now()] with its formats and
      [uuid.uuid4().hex];
    - [get_status_badge_style] and [create_certificate_html]: the composer;
    - [Py]: a state-and-exception monad for the effectful part (temporary
      file, external renderer, clock, log), with [try/finally] and
      [try/except];
    - [create_certificate] and the request handlers.

    Modelling choices.
    - Text.  A Python [str] is a [string] with one [ascii] per character,
      the characters being the code points U+0000 to U+00FF; on that range
      [lower] below is exactly CPython's [str.lower].  The static text of
      the template is transcribed from the source file byte for byte, so its
      six decorative glyphs, which lie beyond that range, count for their
      UTF-8 bytes in [len]; only a log message shows that number.
    - Attribute sets.  The values of the JSON object are strings, as the
      data model has them; a request body is [null], an object, or one that
      [request.get_json()] refuses.
    - Exceptions are identified with their message, [str(e)].
    - The clock, the random source, the temporary-file service, the
      renderer and [send_file] are the environment [env] of a run: every
      behaviour of theirs is a value of that record; [pdfkit.configuration]
      is an argument of the start-up function in the same way. *)

From Stdlib Require Import Strings.String Strings.Ascii NArith Lia List Bool.
From stdpp Require Import base strings gmap list pretty.

Local Open Scope string_scope.

(** ** Python strings *)

Module PyStr.

Definition in_range (lo hi n : N) : bool := (lo <=? n)%N && (n <=? hi)%N.

(** [str.lower] on one character: A-Z, and the Latin-1 capitals U+00C0 to
    U+00DE except the multiplication sign U+00D7, move up by 32. *)
Definition lower_char (c : ascii) : ascii :=
  let n := N_of_ascii c in
  if in_range 65 90 n || (in_range 192 222 n && negb (n =? 215)%N)
  then ascii_of_N (n + 32) else c.

Fixpoint lower (s : string) : string :=
  match s with
  | EmptyString => EmptyString
  | String c t => String (lower_char c) (lower t)
  end.

(** [str.upper], used by the program on hexadecimal digits only. *)
Definition upper_char (c : ascii) : ascii :=
  let n := N_of_ascii c in
  if in_range 97 122 n then ascii_of_N (n - 32) else c.

Fixpoint upper (s : string) : string :=
  match s with
  | EmptyString => EmptyString
  | String c t => String (upper_char c) (upper t)
  end.

(** [hay.startswith(needle)] *)
Fixpoint startswith (needle hay : string) : bool :=
  match needle, hay with
  | EmptyString, _ => true
  | String _ _, EmptyString => false
  | String a n', String b h' => if Ascii.eqb a b then startswith n' h' else false
  end.

(** [needle in hay] *)
Fixpoint contains (needle hay : string) : bool :=
  startswith needle hay ||
  match hay with
  | EmptyString => false
  | String _ t => contains needle t
  end.

(** [s[:n]]: the first [n] characters, the whole of [s] when it is shorter. *)
Fixpoint slice_to (n : nat) (s : string) : string :=
  match n, s with
  | O, _ => EmptyString
  | S _, EmptyString => EmptyString
  | S n', String c t => String c (slice_to n' t)
  end.

(** [not s] for a string: true on the empty string. *)
Definition falsy (s : string) : bool :=
  match s with EmptyString => true | String _ _ => false end.

Definition all_chars (p : ascii -> bool) : string -> bool :=
  fix go s := match s with
              | EmptyString => true
              | String c t => p c && go t
              end.

(** Concatenation of a list of strings, [''.join(l)]. *)
Fixpoint join (l : list string) : string :=
  match l with
  | [] => EmptyString
  | s :: t => s ++ join t
  end.

End PyStr.

(** ** The clock: [datetime.now()] and its two renderings *)

Module Clock.

Record datetime := {
  year : nat; month : nat; day : nat;
  hour : nat; minute : nat; second : nat; microsecond : nat
}.

Fixpoint zeros (n : nat) : string :=
  match n with O => EmptyString | S n' => String "0" (zeros n') end.

(** [str(n).zfill(w)] *)
Definition zfill (w : nat) (n : nat) : string :=
  let s := pretty n in zeros (w - String.length s) ++ s.

(** [strftime('%Y-%m-%d %H:%M:%S')] *)
Definition strftime_display (t : datetime) : string :=
  zfill 4 (year t) ++ "-" ++ zfill 2 (month t) ++ "-" ++ zfill 2 (day t) ++ " " ++
  zfill 2 (hour t) ++ ":" ++ zfill 2 (minute t) ++ ":" ++ zfill 2 (second t).

(** [strftime('%Y%m%d_%H%M%S')] *)
Definition strftime_compact (t : datetime) : string :=
  zfill 4 (year t) ++ zfill 2 (month t) ++ zfill 2 (day t) ++ "_" ++
  zfill 2 (hour t) ++ zfill 2 (minute t) ++ zfill 2 (second t).

(** [isoformat()]: the fraction is printed only when it is not zero. *)
Definition isoformat (t : datetime) : string :=
  zfill 4 (year t) ++ "-" ++ zfill 2 (month t) ++ "-" ++ zfill 2 (day t) ++ "T" ++
  zfill 2 (hour t) ++ ":" ++ zfill 2 (minute t) ++ ":" ++ zfill 2 (second t) ++
  match microsecond t with
  | O => EmptyString
  | us => "." ++ zfill 6 us
  end.

End Clock.

(** ** [uuid.uuid4().hex] *)

Module Uuid.

(** A UUID is its 128-bit integer; [hex] is ['%032x' % self.int]. *)
Definition hex_digit (d : N) : ascii :=
  if (d <? 10)%N then ascii_of_N (48 + d) else ascii_of_N (87 + d).

Fixpoint hex_go (w : nat) (n : N) (acc : string) : string :=
  match w with
  | O => acc
  | S w' => hex_go w' (n / 16)%N (String (hex_digit (n mod 16)%N) acc)
  end.

Definition hex (uuid : N) : string := hex_go 32 uuid EmptyString.

Definition is_upper_hex (c : ascii) : bool :=
  let n := N_of_ascii c in PyStr.in_range 48 57 n || PyStr.in_range 65 70 n.

End Uuid.

(** ** The composer *)

(** The attribute set: a JSON object whose values are strings. *)
Abbreviation attrs := (gmap string string).

(** [data.get(key, dflt)] *)
Definition get (data : attrs) (key dflt : string) : string :=
  default dflt (data !! key).

(** The four style strings of [get_status_badge_style], in source order. *)
Definition style_none : string :=
  "background: #6c757d; color: white;".
Definition style_success : string :=
  "background: linear-gradient(45deg, #28a745, #20c997); color: white; box-shadow: 0 4px 15px rgba(40, 167, 69, 0.4);".
Definition style_failure : string :=
  "background: linear-gradient(45deg, #dc3545, #e74c3c); color: white; box-shadow: 0 4px 15px rgba(220, 53, 69, 0.4);".
Definition style_other : string :=
  "background: linear-gradient(45deg, #ffc107, #fd7e14); color: #212529; box-shadow: 0 4px 15px rgba(255, 193, 7, 0.4);".

Definition has_success_token (status_lower : string) : bool :=
  PyStr.contains "pass" status_lower || PyStr.contains "success" status_lower
  || PyStr.contains "complete" status_lower.

Definition has_failure_token (status_lower : string) : bool :=
  PyStr.contains "fail" status_lower || PyStr.contains "error" status_lower.

(** [status] is [None] for Python's [None]. *)
Definition get_status_badge_style (status : option string) : string :=
  match status with
  | None => style_none
  | Some status =>
    if PyStr.falsy status then style_none
    else
      let status_lower := PyStr.lower status in
      if has_success_token status_lower then style_success
      else if has_failure_token status_lower then style_failure
      else style_other
  end.

(** The interpolation holes of the f-string of [create_certificate_html],
    named after the place they fill; [Field k] is [{data.get(k, 'N/A')}]. *)
Inductive slot :=
| TitleCertId         (* line 99:  {cert_id} *)
| BadgeStyle          (* line 283: {status_badge_style} *)
| InfoCertId          (* line 517: {cert_id} *)
| InfoIssueDate       (* line 521: {issue_date} *)
| InfoStatus          (* line 529: {final_status} *)
| Field (key : string) (* lines 525 to 695: {data.get(key, 'N/A')} *)
| SigTechnicianName   (* line 726: {data.get('technician_name', 'John Smith')} *)
| SigTechnicianDate   (* line 727: {data.get('technician_date', issue_date[:10])} *)
| SigSupervisorName   (* line 732: {data.get('supervisor_name', 'Jane Doe')} *)
| SigSupervisorDate   (* line 733: {data.get('supervisor_date', issue_date[:10])} *)
| QrCertId            (* line 742: {cert_id} *)
| FooterGenerated     (* line 748: {current_time} *)
| FooterDocumentId    (* line 748: {cert_id} *)
| FooterVerifyLink.   (* line 748: {cert_id.lower()} *)

#[global] Instance slot_eq_dec : EqDecision slot.
Proof. solve_decision. Defined.

Inductive part :=
| Text (s : string)
| Hole (h : slot).

(** The template is written below with a backquote wherever the source has
    a double quote (the source has no backquote); [unquote] restores them. *)
Definition unquote_char (c : ascii) : ascii :=
  if Ascii.eqb c "`" then ascii_of_nat 34 else c.

Fixpoint unquote (s : string) : string :=
  match s with
  | EmptyString => EmptyString
  | String c t => String (unquote_char c) (unquote t)
  end.

(** The f-string of lines 93 to 755, cut at its holes ([{{] and [}}] are
    the braces they stand for). *)
Definition template_src : list part :=
[ Text "
        <!DOCTYPE html>
        <html lang=`en`>
        <head>
            <meta charset=`UTF-8`>
            <meta name=`viewport` content=`width=device-width, initial-scale=1.0`>
            <title>Certificate of Authenticity - ";
  Hole TitleCertId;
  Text "</title>
            <style>
                @import url('https://fonts.googleapis.com/css2?family=Playfair+Display:wght@400;600;700&family=Inter:wght@300;400;500;600;700&display=swap');
                
                * {
                    margin: 0;
                    padding: 0;
                    box-sizing: border-box;
                }
                
                body {
                    font-family: 'Inter', sans-serif;
                    background: linear-gradient(135deg, #667eea 0%, #764ba2 100%);
                    color: #2c3e50;
                    line-height: 1.6;
                    min-height: 100vh;
                    padding: 0;
                }
                
                .certificate-container {
                    max-width: 210mm;
                    margin: 0 auto;
                    background: #ffffff;
                    position: relative;
                    overflow: hidden;
                }
                
                /* Decorative Elements */
                .cert-border {
                    position: absolute;
                    top: 15px;
                    left: 15px;
                    right: 15px;
                    bottom: 15px;
                    border: 3px solid #c9a96e;
                    border-radius: 15px;
                }
                
                .cert-border::before {
                    content: '';
                    position: absolute;
                    top: 10px;
                    left: 10px;
                    right: 10px;
                    bottom: 10px;
                    border: 1px solid #c9a96e;
                    border-radius: 10px;
                }
                
                .corner-ornament {
                    position: absolute;
                    width: 60px;
                    height: 60px;
                    background: radial-gradient(circle, #c9a96e 0%, #8b7355 100%);
                    transform: rotate(45deg);
                }
                
                .corner-ornament.top-left { top: 25px; left: 25px; }
                .corner-ornament.top-right { top: 25px; right: 25px; }
                .corner-ornament.bottom-left { bottom: 25px; left: 25px; }
                .corner-ornament.bottom-right { bottom: 25px; right: 25px; }
                
                .corner-ornament::before {
                    content: '';
                    position: absolute;
                    top: 50%;
                    left: 50%;
                    width: 30px;
                    height: 30px;
                    background: #fff;
                    transform: translate(-50%, -50%);
                    border-radius: 50%;
                }
                
                .watermark {
                    position: absolute;
                    top: 50%;
                    left: 50%;
                    transform: translate(-50%, -50%) rotate(-45deg);
                    font-size: 150px;
                    font-weight: 100;
                    color: rgba(201, 169, 110, 0.05);
                    z-index: 1;
                    font-family: 'Playfair Display', serif;
                    letter-spacing: 10px;
                }
                
                .content {
                    position: relative;
                    z-index: 2;
                    padding: 60px 50px 40px;
                }
                
                /* Header Section */
                .header {
                    text-align: center;
                    margin-bottom: 40px;
                }
                
                .company-logo {
                    width: 120px;
                    height: 120px;
                    margin: 0 auto 20px;
                    background: linear-gradient(135deg, #667eea 0%, #764ba2 100%);
                    border-radius: 50%;
                    display: flex;
                    align-items: center;
                    justify-content: center;
                    color: white;
                    font-size: 48px;
                    font-weight: bold;
                    box-shadow: 0 10px 30px rgba(0,0,0,0.1);
                }
                
                .cert-title {
                    font-family: 'Playfair Display', serif;
                    font-size: 42px;
                    font-weight: 700;
                    color: #2c3e50;
                    margin-bottom: 8px;
                    text-shadow: 1px 1px 2px rgba(0,0,0,0.1);
                }
                
                .cert-subtitle {
                    font-size: 16px;
                    color: #7f8c8d;
                    font-weight: 300;
                    letter-spacing: 1px;
                    text-transform: uppercase;
                    margin-bottom: 30px;
                    line-height: 1.4;
                    word-wrap: break-word;
                    max-width: 100%;
                    padding: 0 20px;
                }
                
                /* Certificate Info Bar */
                .cert-info-bar {
                    background: linear-gradient(135deg, #f8f9fa 0%, #e9ecef 100%);
                    border-radius: 15px;
                    padding: 25px;
                    margin-bottom: 40px;
                    box-shadow: inset 0 2px 10px rgba(0,0,0,0.05);
                    border: 1px solid #dee2e6;
                }
                
                .cert-info-grid {
                    display: grid;
                    grid-template-columns: repeat(2, 1fr);
                    gap: 20px;
                }
                
                .info-item {
                    display: flex;
                    align-items: center;
                    justify-content: space-between;
                    padding: 15px 20px;
                    background: white;
                    border-radius: 10px;
                    box-shadow: 0 2px 8px rgba(0,0,0,0.08);
                    border-left: 4px solid #667eea;
                }
                
                .info-label {
                    font-weight: 600;
                    color: #495057;
                    font-size: 14px;
                }
                
                .info-value {
                    font-weight: 700;
                    color: #212529;
                    font-size: 16px;
                }
                
                /* Status Badge */
                .status-badge {
                    display: inline-block;
                    padding: 8px 20px;
                    border-radius: 25px;
                    font-size: 14px;
                    font-weight: 700;
                    text-transform: uppercase;
                    letter-spacing: 1px;
                    ";
  Hole BadgeStyle;
  Text "
                }
                
                .status-checkmark {
                    color: #28a745;
                    font-weight: bold;
                    font-size: 16px;
                    margin-right: 5px;
                }
                
                /* Data Sections */
                .data-section {
                    margin-bottom: 35px;
                    page-break-inside: avoid;
                }
                
                .section-header {
                    display: flex;
                    align-items: center;
                    margin-bottom: 20px;
                    padding: 15px 0;
                    border-bottom: 2px solid #e9ecef;
                }
                
                .section-icon {
                    width: 40px;
                    height: 40px;
                    border-radius: 50%;
                    display: flex;
                    align-items: center;
                    justify-content: center;
                    color: white;
                    font-weight: bold;
                    margin-right: 15px;
                    font-size: 18px;
                }
                
                .device-icon { background: linear-gradient(135deg, #28a745, #20c997); }
                .process-icon { background: linear-gradient(135deg, #fd7e14, #f39c12); }
                .verification-icon { background: linear-gradient(135deg, #dc3545, #e74c3c); }
                .additional-icon { background: linear-gradient(135deg, #6f42c1, #8e44ad); }
                
                .section-title {
                    font-family: 'Playfair Display', serif;
                    font-size: 24px;
                    font-weight: 600;
                    color: #2c3e50;
                }
                
                .data-grid {
                    display: grid;
                    grid-template-columns: repeat(2, 1fr);
                    gap: 15px;
                }
                
                .data-item {
                    background: #f8f9fa;
                    padding: 20px;
                    border-radius: 12px;
                    border: 1px solid #e9ecef;
                    transition: all 0.3s ease;
                }
                
                .data-item:hover {
                    background: #fff;
                    box-shadow: 0 5px 15px rgba(0,0,0,0.1);
                    transform: translateY(-2px);
                }
                
                .data-label {
                    font-size: 12px;
                    font-weight: 600;
                    color: #6c757d;
                    text-transform: uppercase;
                    letter-spacing: 1px;
                    margin-bottom: 8px;
                }
                
                .data-value {
                    font-size: 16px;
                    font-weight: 500;
                    color: #212529;
                    word-break: break-all;
                }
                
                /* Certification Statement */
                .certification-statement {
                    background: linear-gradient(135deg, #e8f5e8 0%, #f0f8f0 100%);
                    border: 2px solid #28a745;
                    border-radius: 15px;
                    padding: 35px;
                    margin: 60px 0 40px 0;
                    text-align: center;
                    position: relative;
                    box-shadow: 0 8px 25px rgba(40, 167, 69, 0.15);
                    page-break-before: always;
                    page-break-after: always;
                }
                
                
                .statement-title {
                    font-family: 'Playfair Display', serif;
                    font-size: 28px;
                    font-weight: 700;
                    color: #155724;
                    margin-bottom: 20px;
                }
                
                .statement-text {
                    font-size: 16px;
                    color: #155724;
                    line-height: 1.8;
                    margin-bottom: 15px;
                }
                
                /* Signature Section */
                .signature-section {
                    margin-top: 50px;
                    page-break-inside: avoid;
                    page-break-before: always;
                }
                
                .signature-grid {
                    display: grid;
                    grid-template-columns: repeat(2, 1fr);
                    gap: 60px;
                    margin-top: 40px;
                }
                
                .signature-box {
                    text-align: center;
                    position: relative;
                }
                
                .signature-line {
                    height: 2px;
                    background: linear-gradient(to right, #667eea, #764ba2);
                    margin: 50px 20px 15px;
                    border-radius: 2px;
                }
                
                .signature-role {
                    font-weight: 700;
                    font-size: 16px;
                    color: #2c3e50;
                    margin-bottom: 8px;
                }
                
                .signature-name {
                    font-size: 18px;
                    color: #495057;
                    margin-bottom: 5px;
                }
                
                .signature-date {
                    font-size: 12px;
                    color: #6c757d;
                }
                
                /* Footer */
                .certificate-footer {
                    margin-top: 40px;
                    padding-top: 30px;
                    border-top: 1px solid #dee2e6;
                    text-align: center;
                }
                
                .footer-text {
                    font-size: 11px;
                    color: #6c757d;
                    margin-bottom: 10px;
                }
                
                .qr-code {
                    width: 80px;
                    height: 80px;
                    margin: 20px auto 10px;
                    background: linear-gradient(135deg, #667eea, #764ba2);
                    border-radius: 10px;
                    display: flex;
                    align-items: center;
                    justify-content: center;
                    color: white;
                    font-size: 12px;
                    font-weight: bold;
                }
                
                /* Print Styles */
                @media print {
                    body { background: none; }
                    .certificate-container { box-shadow: none; }
                    .certification-statement { 
                        page-break-before: always; 
                        page-break-after: always;
                        margin-top: 80px;
                    }
                    .signature-section { 
                        page-break-before: always; 
                        margin-top: 80px;
                    }
                }
                
                /* Page Break Utilities for wkhtmltopdf */
                .page-break-before {
                    page-break-before: always;
                }
                
                .page-break-inside-avoid {
                    page-break-inside: avoid;
                }
            </style>
        </head>
        <body>
            <div class=`certificate-container`>
                <div class=`cert-border`></div>
                <div class=`corner-ornament top-left`></div>
                <div class=`corner-ornament top-right`></div>
                <div class=`corner-ornament bottom-left`></div>
                <div class=`corner-ornament bottom-right`></div>
                <div class=`watermark`>CERTIFIED</div>
                
                <div class=`content`>
                    <!-- Header -->
                    <div class=`header`>
                        <div class=`company-logo`>DS</div>
                        <h1 class=`cert-title`>Certificate of Authenticity</h1>
                        <p class=`cert-subtitle`>Data Sanitization & Security Verification</p>
                    </div>
                    
                    <!-- Certificate Info Bar -->
                    <div class=`cert-info-bar`>
                        <div class=`cert-info-grid`>
                            <div class=`info-item`>
                                <span class=`info-label`>Certificate ID</span>
                                <span class=`info-value`>";
  Hole InfoCertId;
  Text "</span>
                            </div>
                            <div class=`info-item`>
                                <span class=`info-label`>Issue Date</span>
                                <span class=`info-value`>";
  Hole InfoIssueDate;
  Text "</span>
                            </div>
                            <div class=`info-item`>
                                <span class=`info-label`>Technician</span>
                                <span class=`info-value`>";
  Hole (Field "technician_name");
  Text "</span>
                            </div>
                            <div class=`info-item`>
                                <span class=`info-label`>Status</span>
                                <span class=`status-badge`><span class=`status-checkmark`>‚úì</span>";
  Hole InfoStatus;
  Text "</span>
                            </div>
                        </div>
                    </div>
                    
                    <!-- Device Information -->
                    <div class=`data-section`>
                        <div class=`section-header`>
                            <div class=`section-icon device-icon`>üíæ</div>
                            <h2 class=`section-title`>Device Information</h2>
                        </div>
                        <div class=`data-grid`>
                            <div class=`data-item`>
                                <div class=`data-label`>Device Type</div>
                                <div class=`data-value`>";
  Hole (Field "device_type");
  Text "</div>
                            </div>
                            <div class=`data-item`>
                                <div class=`data-label`>Manufacturer</div>
                                <div class=`data-value`>";
  Hole (Field "manufacturer");
  Text "</div>
                            </div>
                            <div class=`data-item`>
                                <div class=`data-label`>Model</div>
                                <div class=`data-value`>";
  Hole (Field "model");
  Text "</div>
                            </div>
                            <div class=`data-item`>
                                <div class=`data-label`>Serial Number</div>
                                <div class=`data-value`>";
  Hole (Field "serial_number");
  Text "</div>
                            </div>
                            <div class=`data-item`>
                                <div class=`data-label`>Asset Tag</div>
                                <div class=`data-value`>";
  Hole (Field "asset_tag");
  Text "</div>
                            </div>
                            <div class=`data-item`>
                                <div class=`data-label`>Capacity</div>
                                <div class=`data-value`>";
  Hole (Field "capacity");
  Text "</div>
                            </div>
                            <div class=`data-item`>
                                <div class=`data-label`>Interface</div>
                                <div class=`data-value`>";
  Hole (Field "interface");
  Text "</div>
                            </div>
                            <div class=`data-item`>
                                <div class=`data-label`>Firmware Version</div>
                                <div class=`data-value`>";
  Hole (Field "firmware_version");
  Text "</div>
                            </div>
                        </div>
                    </div>
                    
                    <!-- Sanitization Process -->
                    <div class=`data-section`>
                        <div class=`section-header`>
                            <div class=`section-icon process-icon`>üîÑ</div>
                            <h2 class=`section-title`>Sanitization Process</h2>
                        </div>
                        <div class=`data-grid`>
                            <div class=`data-item`>
                                <div class=`data-label`>Method Used</div>
                                <div class=`data-value`>";
  Hole (Field "sanitization_method");
  Text "</div>
                            </div>
                            <div class=`data-item`>
                                <div class=`data-label`>Standard Compliance</div>
                                <div class=`data-value`>";
  Hole (Field "standard_compliance");
  Text "</div>
                            </div>
                            <div class=`data-item`>
                                <div class=`data-label`>Number of Passes</div>
                                <div class=`data-value`>";
  Hole (Field "number_of_passes");
  Text "</div>
                            </div>
                            <div class=`data-item`>
                                <div class=`data-label`>Algorithm</div>
                                <div class=`data-value`>";
  Hole (Field "algorithm");
  Text "</div>
                            </div>
                            <div class=`data-item`>
                                <div class=`data-label`>Start Time</div>
                                <div class=`data-value`>";
  Hole (Field "start_time");
  Text "</div>
                            </div>
                            <div class=`data-item`>
                                <div class=`data-label`>Duration</div>
                                <div class=`data-value`>";
  Hole (Field "duration");
  Text "</div>
                            </div>
                            <div class=`data-item`>
                                <div class=`data-label`>Software Used</div>
                                <div class=`data-value`>";
  Hole (Field "software_used");
  Text "</div>
                            </div>
                            <div class=`data-item`>
                                <div class=`data-label`>Software Version</div>
                                <div class=`data-value`>";
  Hole (Field "software_version");
  Text "</div>
                            </div>
                        </div>
                    </div>
                    
                    <!-- Verification Results -->
                    <div class=`data-section`>
                        <div class=`section-header`>
                            <div class=`section-icon verification-icon`>‚úì</div>
                            <h2 class=`section-title`>Verification Results</h2>
                        </div>
                        <div class=`data-grid`>
                            <div class=`data-item`>
                                <div class=`data-label`>Pre-wipe Status</div>
                                <div class=`data-value`>";
  Hole (Field "pre_wipe_verification");
  Text "</div>
                            </div>
                            <div class=`data-item`>
                                <div class=`data-label`>Post-wipe Status</div>
                                <div class=`data-value`>";
  Hole (Field "post_wipe_verification");
  Text "</div>
                            </div>
                            <div class=`data-item`>
                                <div class=`data-label`>Verification Method</div>
                                <div class=`data-value`>";
  Hole (Field "verification_method");
  Text "</div>
                            </div>
                            <div class=`data-item`>
                                <div class=`data-label`>Sectors Processed</div>
                                <div class=`data-value`>";
  Hole (Field "sectors_processed");
  Text "</div>
                            </div>
                            <div class=`data-item`>
                                <div class=`data-label`>Data Remnants</div>
                                <div class=`data-value`>";
  Hole (Field "data_remnants");
  Text "</div>
                            </div>
                            <div class=`data-item`>
                                <div class=`data-label`>OS Installation</div>
                                <div class=`data-value`>";
  Hole (Field "os_installation_status");
  Text "</div>
                            </div>
                            <div class=`data-item`>
                                <div class=`data-label`>OS Version</div>
                                <div class=`data-value`>";
  Hole (Field "os_version");
  Text "</div>
                            </div>
                            <div class=`data-item`>
                                <div class=`data-label`>Boot Test</div>
                                <div class=`data-value`>";
  Hole (Field "boot_test_result");
  Text "</div>
                            </div>
                        </div>
                    </div>
                    
                    <!-- Additional Information -->
                    <div class=`data-section`>
                        <div class=`section-header`>
                            <div class=`section-icon additional-icon`>üìã</div>
                            <h2 class=`section-title`>Additional Information</h2>
                        </div>
                        <div class=`data-grid`>
                            <div class=`data-item`>
                                <div class=`data-label`>Customer Name</div>
                                <div class=`data-value`>";
  Hole (Field "customer_name");
  Text "</div>
                            </div>
                            <div class=`data-item`>
                                <div class=`data-label`>Work Order</div>
                                <div class=`data-value`>";
  Hole (Field "work_order");
  Text "</div>
                            </div>
                            <div class=`data-item`>
                                <div class=`data-label`>Location</div>
                                <div class=`data-value`>";
  Hole (Field "location");
  Text "</div>
                            </div>
                            <div class=`data-item`>
                                <div class=`data-label`>Witness</div>
                                <div class=`data-value`>";
  Hole (Field "witness_name");
  Text "</div>
                            </div>
                            <div class=`data-item`>
                                <div class=`data-label`>Temperature</div>
                                <div class=`data-value`>";
  Hole (Field "temperature");
  Text "</div>
                            </div>
                            <div class=`data-item`>
                                <div class=`data-label`>Humidity</div>
                                <div class=`data-value`>";
  Hole (Field "humidity");
  Text "</div>
                            </div>
                        </div>
                        
                        <div class=`data-item` style=`grid-column: 1 / -1; margin-top: 15px;`>
                            <div class=`data-label`>Notes</div>
                            <div class=`data-value`>";
  Hole (Field "notes");
  Text "</div>
                        </div>
                    </div>
                    
                    <!-- Certification Statement -->
                    <div class=`certification-statement`>
                        <h3 class=`statement-title`>Official Certification</h3>
                        <p class=`statement-text`>
                            This certificate verifies that the above-mentioned storage device has undergone comprehensive 
                            data sanitization procedures in full compliance with industry standards and regulatory requirements.
                        </p>
                        <p class=`statement-text`>
                            All confidential data has been permanently destroyed using cryptographically secure methods, 
                            rendering any previously stored information completely irrecoverable through any known forensic techniques.
                        </p>
                        <p class=`statement-text`>
                            <strong>This certification guarantees the complete sanitization of the specified device and 
                            confirms its readiness for secure redeployment or disposal.</strong>
                        </p>
                    </div>
                    
                    <!-- Signatures -->
                    <div class=`signature-section`>
                        <div class=`section-header`>
                            <div class=`section-icon` style=`background: linear-gradient(135deg, #17a2b8, #138496);`>‚úçÔ∏è</div>
                            <h2 class=`section-title`>Authorization</h2>
                        </div>
                        <div class=`signature-grid`>
                            <div class=`signature-box`>
                                <div class=`signature-role`>Certified Technician</div>
                                <div class=`signature-line`></div>
                                <div class=`signature-name`>";
  Hole SigTechnicianName;
  Text "</div>
                                <div class=`signature-date`>Date: ";
  Hole SigTechnicianDate;
  Text "</div>
                            </div>
                            <div class=`signature-box`>
                                <div class=`signature-role`>Quality Supervisor</div>
                                <div class=`signature-line`></div>
                                <div class=`signature-name`>";
  Hole SigSupervisorName;
  Text "</div>
                                <div class=`signature-date`>Date: ";
  Hole SigSupervisorDate;
  Text "</div>
                            </div>
                        </div>
                    </div>
                    
                    <!-- Footer -->
                    <div class=`certificate-footer`>
                        <div class=`qr-code`>
                            QR CODE<br>
                            ";
  Hole QrCertId;
  Text "
                        </div>
                        <p class=`footer-text`>
                            This certificate contains sensitive security information. Handle in accordance with data protection policies.
                        </p>
                        <p class=`footer-text`>
                            Generated: ";
  Hole FooterGenerated;
  Text " | Document ID: ";
  Hole FooterDocumentId;
  Text " | Verification: secure-verify.com/";
  Hole FooterVerifyLink;
  Text "
                        </p>
                    </div>
                </div>
            </div>
        </body>
        </html>
        " ].

Definition template : list part :=
  map (fun p => match p with Text s => Text (unquote s) | Hole h => Hole h end)
      template_src.

(** The local variables of [create_certificate_html]. *)
Record locals := {
  current_time : string;
  issue_date : string;
  cert_id : string;
  final_status : string;
  status_badge_style : string
}.

Definition synth_cert_id (uuid : N) : string :=
  "CERT-" ++ PyStr.upper (PyStr.slice_to 8 (Uuid.hex uuid)).

(** Lines 87 to 91; [now] is what [datetime.now()] returns and [uuid] what
    [uuid.uuid4()] returns. *)
Definition html_locals (now : Clock.datetime) (uuid : N) (data : attrs) : locals :=
  let current_time := Clock.strftime_display now in
  let issue_date := get data "issue_date" current_time in
  let cert_id := get data "certificate_id" (synth_cert_id uuid) in
  let final_status := get data "final_status" "VERIFIED" in
  let status_badge_style := get_status_badge_style (Some final_status) in
  {| current_time := current_time; issue_date := issue_date; cert_id := cert_id;
     final_status := final_status; status_badge_style := status_badge_style |}.

(** The expression in each hole. *)
Definition slot_value (L : locals) (data : attrs) (h : slot) : string :=
  match h with
  | TitleCertId | InfoCertId | QrCertId | FooterDocumentId => cert_id L
  | BadgeStyle => status_badge_style L
  | InfoIssueDate => issue_date L
  | InfoStatus => final_status L
  | Field key => get data key "N/A"
  | SigTechnicianName => get data "technician_name" "John Smith"
  | SigTechnicianDate => get data "technician_date" (PyStr.slice_to 10 (issue_date L))
  | SigSupervisorName => get data "supervisor_name" "Jane Doe"
  | SigSupervisorDate => get data "supervisor_date" (PyStr.slice_to 10 (issue_date L))
  | FooterGenerated => current_time L
  | FooterVerifyLink => PyStr.lower (cert_id L)
  end.

Definition part_text (L : locals) (data : attrs) (p : part) : string :=
  match p with
  | Text s => s
  | Hole h => slot_value L data h
  end.

Definition fill (L : locals) (data : attrs) (t : list part) : string :=
  PyStr.join (map (part_text L data) t).

Definition create_certificate_html (now : Clock.datetime) (uuid : N) (data : attrs) : string :=
  fill (html_locals now uuid data) data template.

(** ** Effects: a state-and-exception monad *)

Module Py.

Inductive level := INFO | WARNING | ERROR.

(** What the program can change or observe a change of. *)
Record world := {
  files : gmap string string;      (* the file system: path to content *)
  log : list (level * string);     (* the logger's records, oldest first *)
  clock_reads : nat;               (* calls of [datetime.now()] so far *)
  uuid_reads : nat;                (* calls of [uuid.uuid4()] so far *)
  renderer_calls : nat             (* calls of [pdfkit.from_file] so far *)
}.

(** An exception is identified with its message, [str(e)]. *)
Inductive outcome (A : Type) :=
| Ret (a : A)
| Raise (e : string).
Arguments Ret {A} a.
Arguments Raise {A} e.

Definition M (A : Type) : Type := world -> outcome A * world.

#[global] Instance M_ret : MRet M := fun A a w => (Ret a, w).

#[global] Instance M_bind : MBind M := fun A B k m w =>
  match m w with
  | (Ret a, w') => k a w'
  | (Raise e, w') => (Raise e, w')
  end.

Definition raise {A} (e : string) : M A := fun w => (Raise e, w).

(** [try: body / finally: fin]: [fin] runs on both exits of [body]; an
    exception of [fin] replaces the outcome of [body]. *)
Definition try_finally {A} (body : M A) (fin : M unit) : M A := fun w =>
  let '(r, w1) := body w in
  match fin w1 with
  | (Ret _, w2) => (r, w2)
  | (Raise e, w2) => (Raise e, w2)
  end.

(** [try: body / except Exception as e: handler e] *)
Definition try_except {A} (body : M A) (handler : string -> M A) : M A := fun w =>
  match body w with
  | (Ret a, w1) => (Ret a, w1)
  | (Raise e, w1) => handler e w1
  end.

Definition set_files (f : gmap string string -> gmap string string) (w : world) : world :=
  {| files := f (files w); log := log w; clock_reads := clock_reads w;
     uuid_reads := uuid_reads w; renderer_calls := renderer_calls w |}.

Definition logger (l : level) (msg : string) : M unit := fun w =>
  (Ret (), {| files := files w; log := log w ++ [(l, msg)];
              clock_reads := clock_reads w; uuid_reads := uuid_reads w;
              renderer_calls := renderer_calls w |}).

(** How the outside behaves during one run: the clock, the random source,
    the temporary-file service, the renderer and the generator's
    configuration. *)
Record env := {
  time_at : nat -> Clock.datetime;     (* the k-th [datetime.now()] *)
  uuid_at : nat -> N;                  (* the k-th [uuid.uuid4()] *)
  tmp_path : string;                   (* the name [NamedTemporaryFile] picks *)
  open_error : option string;          (* [NamedTemporaryFile] raises this *)
  write_error : option string;         (* writing [temp_html] raises this *)
  partial_write : nat;                 (* characters on disk when it does *)
  unlink_error : option string;        (* [os.unlink] raises this *)
  pdfkit_config : option string;       (* [self.pdfkit_config] *)
  (* [pdfkit.from_file(path, False, options, configuration)]: the PDF bytes
     or the exception raised, and what it leaves of the file system *)
  from_file : option string -> string -> gmap string string ->
              outcome string * gmap string string;
  format_exc : string -> string;       (* [traceback.format_exc()] *)
  (* [send_file(...)] raises this for the download name it is given, as
     the framework does for a name that cannot go into a header *)
  send_file_error : string -> option string
}.

Section Effects.
Variable E : env.

Definition now : M Clock.datetime := fun w =>
  (Ret (time_at E (clock_reads w)),
   {| files := files w; log := log w; clock_reads := S (clock_reads w);
      uuid_reads := uuid_reads w; renderer_calls := renderer_calls w |}).

Definition uuid4 : M N := fun w =>
  (Ret (uuid_at E (uuid_reads w)),
   {| files := files w; log := log w; clock_reads := clock_reads w;
      uuid_reads := S (uuid_reads w); renderer_calls := renderer_calls w |}).

(** [tempfile.NamedTemporaryFile(mode='w', suffix='.html', delete=False)]:
    the file exists, empty, as soon as the call returns. *)
Definition named_temporary_file : M string := fun w =>
  match open_error E with
  | Some e => (Raise e, w)
  | None => (Ret (tmp_path E), set_files (insert (tmp_path E) EmptyString) w)
  end.

(** [temp_html.write(text)] and the flush that ends the [with] block: the
    write is buffered, so a failure leaves the part of [text] that had
    reached the file. *)
Definition file_write (path text : string) : M unit := fun w =>
  match write_error E with
  | Some e =>
    (Raise e, set_files (insert path (PyStr.slice_to (partial_write E) text)) w)
  | None => (Ret (), set_files (insert path text) w)
  end.

Definition path_exists (path : string) : M bool := fun w =>
  (Ret (bool_decide (is_Some (files w !! path))), w).

Definition unlink (path : string) : M unit := fun w =>
  match unlink_error E with
  | Some e => (Raise e, w)
  | None => (Ret (), set_files (delete path) w)
  end.

Definition pdfkit_from_file (path : string) (configuration : option string) : M string :=
  fun w =>
  let '(r, fs) := from_file E configuration path (files w) in
  (r, {| files := fs; log := log w; clock_reads := clock_reads w;
         uuid_reads := uuid_reads w; renderer_calls := S (renderer_calls w) |}).

End Effects.

End Py.

Import Py.

(** ** The generator and the request handlers *)

(** [len(s)] *)
Definition len (s : string) : N := N.of_nat (String.length s).

Module Base64.

Definition digit (n : N) : ascii :=
  if (n <? 26)%N then ascii_of_N (65 + n)
  else if (n <? 52)%N then ascii_of_N (71 + n)
  else if (n <? 62)%N then ascii_of_N (n - 4)
  else if (n =? 62)%N then "+"%char else "/"%char.

(** [base64.b64encode(b).decode('utf-8')] *)
Fixpoint b64encode (b : string) : string :=
  match b with
  | EmptyString => EmptyString
  | String x EmptyString =>
    let x := N_of_ascii x in
    String (digit (x / 4)) (String (digit (x mod 4 * 16)) "==")
  | String x (String y EmptyString) =>
    let x := N_of_ascii x in let y := N_of_ascii y in
    String (digit (x / 4)) (String (digit (x mod 4 * 16 + y / 16))
      (String (digit (y mod 16 * 4)) "="))
  | String x (String y (String z t)) =>
    let x := N_of_ascii x in let y := N_of_ascii y in let z := N_of_ascii z in
    String (digit (x / 4)) (String (digit (x mod 4 * 16 + y / 16))
      (String (digit (y mod 16 * 4 + z / 64)) (String (digit (z mod 64))
        (b64encode t))))
  end%N.

End Base64.

Inductive jvalue :=
| JStr (s : string)
| JBool (b : bool)
| JInt (n : nat).

(** What a handler returns to the framework. *)
Inductive response :=
| Json (status : nat) (body : list (string * jvalue))   (* [jsonify(...), status] *)
| SendFile (content download_name mimetype : string).   (* [send_file(...)] *)

(** What [request.get_json()] does: raise, or return [None] (a JSON [null])
    or the object sent.  The objects are the attribute sets of the data
    model, with string values; a body of another JSON type, and values that
    are not strings, are outside the model. *)
Inductive request :=
| BadJson (e : string)
| Null
| Object (data : attrs).

Section Handlers.
Variable E : env.

Definition get_json (r : request) : M (option attrs) :=
  match r with
  | BadJson e => raise e
  | Null => mret None
  | Object data => mret (Some data)
  end.

(** [not data]: true on [None] and on the empty object. *)
Definition no_data (data : option attrs) : bool :=
  match data with
  | None => true
  | Some d => bool_decide (d = ∅)
  end.

(** [create_certificate_html] together with the effects of its first lines. *)
Definition create_certificate_html_m (data : attrs) : M string :=
  t ← now E;
  u ← uuid4 E;
  mret (create_certificate_html t u data).

Definition create_certificate (data : attrs) : M string :=
  try_except
    (logger INFO "Starting certificate generation..." ;;
     html_content ← create_certificate_html_m data;
     logger INFO ("HTML content generated, length: " ++ pretty (len html_content)) ;;
     temp_html_path ←
       (temp_html ← named_temporary_file E;
        file_write E temp_html html_content ;;
        mret temp_html);
     logger INFO ("Temporary HTML file created: " ++ temp_html_path) ;;
     try_finally
       (logger INFO "Starting PDF generation with wkhtmltopdf..." ;;
        pdf_data ←
          match pdfkit_config E with
          | Some c =>
            logger INFO "Using configured wkhtmltopdf path" ;;
            pdfkit_from_file E temp_html_path (Some c)
          | None =>
            logger INFO "Using system PATH for wkhtmltopdf" ;;
            pdfkit_from_file E temp_html_path None
          end;
        logger INFO ("PDF generated successfully, size: " ++ pretty (len pdf_data) ++ " bytes") ;;
        mret pdf_data)
       (ex ← path_exists temp_html_path;
        if ex : bool then
          unlink E temp_html_path ;;
          logger INFO "Temporary HTML file cleaned up"
        else mret ()))
    (fun e =>
       logger ERROR ("Error creating certificate: " ++ e) ;;
       logger ERROR ("Full traceback: " ++ format_exc E e) ;;
       raise e).

Definition no_data_response : response :=
  Json 400 [("error", JStr "No data provided")].

Definition failure_response (what e : string) : response :=
  Json 500 [("success", JBool false); ("error", JStr ("Failed to generate " ++ what ++ ": " ++ e))].

Definition generate_certificate (r : request) : M response :=
  try_except
    (data ← get_json r;
     if no_data data then mret no_data_response
     else
       let data := default ∅ data in
         logger INFO ("Generating certificate with " ++ pretty (size data) ++ " parameters") ;;
         pdf_buffer ← create_certificate data;
         let pdf_base64 := Base64.b64encode pdf_buffer in
         t ← now E;
         mret (Json 200
           [("success", JBool true);
            ("message", JStr "Professional certificate generated successfully");
            ("pdf_base64", JStr pdf_base64);
            ("filename", JStr ("certificate_" ++ get data "certificate_id" "unknown" ++ ".pdf"));
            ("generated_at", JStr (Clock.isoformat t))]))
    (fun e =>
       logger ERROR ("Error generating certificate: " ++ e) ;;
       mret (failure_response "certificate" e)).

Definition generate_certificate_file (r : request) : M response :=
  try_except
    (data ← get_json r;
     if no_data data then mret no_data_response
     else
       let data := default ∅ data in
         logger INFO ("Generating certificate file with " ++ pretty (size data) ++ " parameters") ;;
         pdf_buffer ← create_certificate data;
         t ← now E;
         let filename :=
           "certificate_" ++ get data "certificate_id" "unknown" ++ "_"
           ++ Clock.strftime_compact t ++ ".pdf" in
         match send_file_error E filename with
         | Some e => raise e
         | None => mret (SendFile pdf_buffer filename "application/pdf")
         end)
    (fun e =>
       logger ERROR ("Error generating certificate file: " ++ e) ;;
       mret (failure_response "certificate" e)).

Definition preview_certificate (r : request) : M response :=
  try_except
    (data ← get_json r;
     if no_data data then mret no_data_response
     else
       let data := default ∅ data in
         html_content ← create_certificate_html_m data;
         mret (Json 200
           [("success", JBool true);
            ("html_content", JStr html_content);
            ("message", JStr "Professional certificate preview generated")]))
    (fun e =>
       logger ERROR ("Error generating preview: " ++ e) ;;
       mret (failure_response "preview" e)).

Definition health_check : M response :=
  t ← now E;
  mret (Json 200
    [("status", JStr "healthy");
     ("service", JStr "Professional Certificate Generator (wkhtmltopdf)");
     ("timestamp", JStr (Clock.isoformat t))]).

(** No [try] here: an exception of [get_json] leaves the handler. *)
Definition test_endpoint (r : request) : M response :=
  data ← get_json r;
  t ← now E;
  mret (Json 200
    [("message", JStr "Professional Certificate API is working");
     ("received_params",
      JInt (if no_data data then 0 else size (default ∅ data)));
     ("timestamp", JStr (Clock.isoformat t))]).

End Handlers.

(** Reading a response. *)
Definition status_of (r : response) : nat :=
  match r with
  | Json status _ => status
  | SendFile _ _ _ => 200
  end.

Fixpoint assoc (k : string) (l : list (string * jvalue)) : option jvalue :=
  match l with
  | [] => None
  | (k', v) :: t => if String.eqb k k' then Some v else assoc k t
  end.

Definition field (k : string) (r : response) : option jvalue :=
  match r with
  | Json _ body => assoc k body
  | SendFile _ _ _ => None
  end.

(** A structured error response: an error status and an ["error"] text. *)
Definition is_error_response (r : response) : Prop :=
  400 <= status_of r /\ exists msg, field "error" r = Some (JStr msg).

Definition world0 : world :=
  {| files := ∅; log := []; clock_reads := 0; uuid_reads := 0; renderer_calls := 0 |}.

(** ** The generator's start-up: [setup_wkhtmltopdf_config] *)

(** [template.format(arg)] for a template with one [{}] and no other
    brace. *)
Fixpoint format1 (template arg : string) : string :=
  match template with
  | EmptyString => EmptyString
  | String c t =>
    match t with
    | String d t' =>
      if Ascii.eqb c "{" && Ascii.eqb d "}" then arg ++ t'
      else String c (format1 t arg)
    | EmptyString => String c EmptyString
    end
  end.

(** Lines 47 to 52; [username] is [os.getenv('USERNAME', '')]. *)
Definition possible_paths (username : string) : list string :=
  ["C:\Program Files\wkhtmltopdf\bin\wkhtmltopdf.exe";
   "C:\Program Files (x86)\wkhtmltopdf\bin\wkhtmltopdf.exe";
   format1 "C:\Users\{}\AppData\Local\Programs\wkhtmltopdf\bin\wkhtmltopdf.exe" username;
   "C:\wkhtmltopdf\bin\wkhtmltopdf.exe"].

(** The loop of lines 54 to 58: the first path that exists. *)
Fixpoint first_existing (paths : list string) : M (option string) :=
  match paths with
  | [] => mret None
  | path :: rest =>
    ex ← path_exists path;
    if ex : bool then mret (Some path) else first_existing rest
  end.

(** [pdfkit.configuration(wkhtmltopdf=path)] opens the path: the
    configuration, or the exception raised when the path cannot be opened (a
    directory, a file that cannot be read). *)
Definition pdfkit_configuration
    (configuration : string -> gmap string string -> outcome string)
    (path : string) : M string :=
  fun w => (configuration path (files w), w).

(** Lines 42 to 69.  [system] is [platform.system()], [username_var] the
    environment variable USERNAME, [configuration] the behaviour of
    [pdfkit.configuration]; the result is [self.pdfkit_config]. *)
Definition setup_wkhtmltopdf_config
    (configuration : string -> gmap string string -> outcome string)
    (system : string) (username_var : option string)
    : M (option string) :=
  if String.eqb system "Windows" then
    wkhtmltopdf_path ← first_existing (possible_paths (default "" username_var));
    match wkhtmltopdf_path with
    | Some path =>
      config ← pdfkit_configuration configuration path;
      logger INFO ("Found wkhtmltopdf at: " ++ path) ;;
      mret (Some config)
    | None =>
      logger WARNING "wkhtmltopdf not found in common paths, using system PATH" ;;
      mret None
    end
  else mret None.

(** ** Vocabulary of the statements *)

(** [tok] occurs in [s] as a substring. *)
Definition occurs (tok s : string) : Prop :=
  exists pre post, s = pre ++ tok ++ post.

Definition success_word (s : string) : Prop :=
  occurs "pass" s \/ occurs "success" s \/ occurs "complete" s.

Definition failure_word (s : string) : Prop :=
  occurs "fail" s \/ occurs "error" s.

(** The attribute names read with the default ['N/A']: the keys of the
    [Field] holes, in template order. *)
Fixpoint field_keys (t : list part) : list string :=
  match t with
  | [] => []
  | Hole (Field k) :: t' => k :: field_keys t'
  | _ :: t' => field_keys t'
  end.

Definition na_fields : list string := field_keys template.

(** [hay.endswith(suffix)] *)
Fixpoint endswith (suffix hay : string) : bool :=
  String.eqb suffix hay ||
  match hay with
  | EmptyString => false
  | String _ t => endswith suffix t
  end.

(** Hole [h] stands in the template between the texts [before] and
    [after]. *)
Definition in_context (before : string) (h : slot) (after : string)
    (t : list part) : Prop :=
  exists l a b r,
    t = (l ++ Text (a ++ before) :: Hole h :: Text (after ++ b) :: r)%list.

Fixpoint in_contextb (before : string) (h : slot) (after : string)
    (t : list part) : bool :=
  match t with
  | [] => false
  | p :: t' =>
    match p, t' with
    | Text x, Hole h' :: Text y :: _ =>
      endswith before x && bool_decide (h = h') && PyStr.startswith after y
    | _, _ => false
    end || in_contextb before h after t'
  end.

(** The text of part [i] of a template, and a string without its last [n]
    characters. *)
Definition text_at (i : nat) (t : list part) : string :=
  match nth_error t i with
  | Some (Text s) => s
  | _ => EmptyString
  end.

Definition chop (n : nat) (s : string) : string :=
  PyStr.slice_to (String.length s - n) s.

(** The two signature dates of lines 727 and 733. *)
Inductive signer := Technician | Supervisor.

Definition date_key (who : signer) : string :=
  match who with
  | Technician => "technician_date"
  | Supervisor => "supervisor_date"
  end.

Definition date_slot (who : signer) : slot :=
  match who with
  | Technician => SigTechnicianDate
  | Supervisor => SigSupervisorDate
  end.

(** The places of the identifier, and the markup that surrounds three of
    them (lines 99, 516-517 and 741-742). *)
Definition id_slots : list slot :=
  [TitleCertId; InfoCertId; QrCertId; FooterDocumentId; FooterVerifyLink].

Definition title_open : string := "<title>Certificate of Authenticity - ".

Definition info_id_open : string :=
  unquote "<span class=`info-label`>Certificate ID</span>
                                <span class=`info-value`>".

Definition qr_open : string :=
  "QR CODE<br>
                            ".

Definition signature_date_open : string :=
  unquote "<div class=`signature-date`>Date: ".

(** The markup before the two signature names (lines 726 and 732), before
    the status text (line 529) and before the badge style in the style
    sheet (lines 282-283). *)
Definition signature_name_open : string :=
  unquote "<div class=`signature-name`>".

Definition status_open : string :=
  unquote "<span class=`status-checkmark`>‚úì</span>".


(** Concrete inputs for the examples. *)
Definition sample_time : Clock.datetime :=
  {| Clock.year := 2024; Clock.month := 3; Clock.day := 15; Clock.hour := 14;
     Clock.minute := 30; Clock.second := 0; Clock.microsecond := 120 |}.

Definition sample_uuid : N := 0xdeadbeef4a1b4c2d8e3f5a6b7c8d9e0f.

Definition sample_data : attrs :=
  {[ "certificate_id" := "CERT-TEST-1"; "final_status" := "PASSED";
     "device_type" := "SSD" ]}.

(** What one call of [create_certificate] comes to, read off the
    environment: the document handed to the renderer, the file system the
    renderer sees, its answer, and the cleanup that follows. *)
Definition html_of (E : env) (data : attrs) (w : world) : string :=
  create_certificate_html (time_at E (clock_reads w)) (uuid_at E (uuid_reads w)) data.

Definition fs_written (E : env) (data : attrs) (w : world) : gmap string string :=
  <[tmp_path E := html_of E data w]> (<[tmp_path E := ""]> (files w)).

Definition rendered (E : env) (data : attrs) (w : world)
    : outcome string * gmap string string :=
  from_file E (pdfkit_config E) (tmp_path E) (fs_written E data w).

Definition cleaned (E : env) (r : outcome string * gmap string string)
    : outcome string * gmap string string :=
  if bool_decide (is_Some (r.2 !! tmp_path E)) then
    match unlink_error E with
    | None => (r.1, delete (tmp_path E) r.2)
    | Some e => (Raise e, r.2)
    end
  else r.

Definition pipeline (E : env) (data : attrs) (w : world)
    : outcome string * gmap string string :=
  match open_error E, write_error E with
  | Some e, _ => (Raise e, files w)
  | None, Some e =>
    (Raise e,
     <[tmp_path E := PyStr.slice_to (partial_write E) (html_of E data w)]>
       (<[tmp_path E := ""]> (files w)))
  | None, None => cleaned E (rendered E data w)
  end.

(** A renderer that answers [answer] whenever its input file exists, and an
    environment around it in which [os.unlink] raises [unlink_err]. *)
Definition sample_from_file (answer : outcome string)
    (configuration : option string) (path : string) (fs : gmap string string)
    : outcome string * gmap string string :=
  (match fs !! path with
   | Some _ => answer
   | None => Raise "No such file"
   end, fs).

Definition sample_env (answer : outcome string) (unlink_err : option string) : env :=
  {| time_at := fun _ => sample_time;
     uuid_at := fun _ => sample_uuid;
     tmp_path := "/tmp/tmpk3v9x2.html";
     open_error := None;
     write_error := None;
     partial_write := 0;
     unlink_error := unlink_err;
     pdfkit_config := None;
     from_file := sample_from_file answer;
     format_exc := fun e => "Traceback (most recent call last): " ++ e;
     send_file_error := fun _ => None |}.

Definition pdf_ok : outcome string := Ret "%PDF-1.4".
Definition wkhtmltopdf_failed : outcome string :=
  Raise "wkhtmltopdf reported an error: Exit with code 1".
Definition file_in_use : option string :=
  Some "[WinError 32] The process cannot access the file".

(** What [generate_certificate] answers on a non-empty attribute set. *)
Definition generate_success (E : env) (data : attrs) (w : world) (pdf : string)
    : response :=
  Json 200
    [("success", JBool true);
     ("message", JStr "Professional certificate generated successfully");
     ("pdf_base64", JStr (Base64.b64encode pdf));
     ("filename", JStr ("certificate_" ++ get data "certificate_id" "unknown" ++ ".pdf"));
     ("generated_at", JStr (Clock.isoformat (time_at E (S (clock_reads w)))))].

(** What [generate_certificate_file] answers once the pipeline returned
    [pdf]: the file under its download name, or the 500 response when
    [send_file] refuses that name. *)
Definition download_name (E : env) (data : attrs) (w : world) : string :=
  "certificate_" ++ get data "certificate_id" "unknown" ++ "_"
  ++ Clock.strftime_compact (time_at E (S (clock_reads w))) ++ ".pdf".

Definition file_response (E : env) (data : attrs) (w : world) (pdf : string)
    : response :=
  match send_file_error E (download_name E data w) with
  | Some e => failure_response "certificate" e
  | None => SendFile pdf (download_name E data w) "application/pdf"
  end.

(** The inverse of [Base64.digit] and the decoder of RFC 4648 for padded
    text, what a client applies to the "pdf_base64" field. *)
Definition b64_value (c : ascii) : option N :=
  let n := N_of_ascii c in
  if PyStr.in_range 65 90 n then Some (n - 65)%N
  else if PyStr.in_range 97 122 n then Some (n - 71)%N
  else if PyStr.in_range 48 57 n then Some (n + 4)%N
  else if (n =? 43)%N then Some 62%N
  else if (n =? 47)%N then Some 63%N
  else None.

Fixpoint b64decode (s : string) : option string :=
  match s with
  | EmptyString => Some EmptyString
  | String a (String b (String c (String d t))) =>
    match b64_value a, b64_value b with
    | Some va, Some vb =>
      let x := ascii_of_N (va * 4 + vb / 16) in
      if Ascii.eqb d "=" then
        match t with
        | EmptyString =>
          if Ascii.eqb c "=" then Some (String x EmptyString)
          else
            match b64_value c with
            | Some vc =>
              Some (String x (String (ascii_of_N (vb mod 16 * 16 + vc / 4)) EmptyString))
            | None => None
            end
        | String _ _ => None
        end
      else
        match b64_value c, b64_value d, b64decode t with
        | Some vc, Some vd, Some rest =>
          Some (String x
                 (String (ascii_of_N (vb mod 16 * 16 + vc / 4))
                   (String (ascii_of_N (vc mod 4 * 64 + vd)) rest)))
        | _, _, _ => None
        end
    | _, _ => None
    end%N
  | _ => None
  end.

(** The holes of a template, and the attribute names a hole reads. *)
Fixpoint holes (t : list part) : list slot :=
  match t with
  | [] => []
  | Hole h :: t' => h :: holes t'
  | Text _ :: t' => holes t'
  end.

Definition slot_keys (h : slot) : list string :=
  match h with
  | Field k => [k]
  | SigTechnicianName => ["technician_name"]
  | SigTechnicianDate => ["technician_date"]
  | SigSupervisorName => ["supervisor_name"]
  | SigSupervisorDate => ["supervisor_date"]
  | _ => []
  end.

(** Every attribute name the composer looks up: the three of lines 88 to
    90 and those of the holes. *)
Definition read_keys : list string :=
  ["issue_date"; "certificate_id"; "final_status"]
  ++ flat_map slot_keys (holes template).

(** The number of base64 characters for [n] bytes. *)
Definition b64_length (n : nat) : nat := 4 * ((n + 2) / 3).

(** The first 32 bits of a 128-bit UUID. *)
Definition uuid_head (uuid : N) : N := ((uuid / 2 ^ 96) mod 2 ^ 32)%N.

(** An environment in which creating or writing the temporary file fails,
    the write after 4096 characters. *)
Definition failing_tempfile_env (open_err write_err : option string) : env :=
  {| time_at := fun _ => sample_time;
     uuid_at := fun _ => sample_uuid;
     tmp_path := "/tmp/tmpk3v9x2.html";
     open_error := open_err;
     write_error := write_err;
     partial_write := 4096;
     unlink_error := None;
     pdfkit_config := None;
     from_file := sample_from_file pdf_ok;
     format_exc := fun e => e;
     send_file_error := fun _ => None |}.

(** A renderer that returns its input file as it is. *)
Definition echo_env : env :=
  {| time_at := fun _ => sample_time;
     uuid_at := fun _ => sample_uuid;
     tmp_path := "/tmp/tmpk3v9x2.html";
     open_error := None;
     write_error := None;
     partial_write := 0;
     unlink_error := None;
     pdfkit_config := None;
     from_file := fun _ p fs => (match fs !! p with
                                 | Some text => Ret text
                                 | None => Raise "No such file"
                                 end, fs);
     format_exc := fun e => e;
     send_file_error := fun _ => None |}.

(** [send_file] refusing a download name that holds a line break, and the
    sample environment with it. *)
Definition refuses_line_break (name : string) : option string :=
  if PyStr.contains (String "010" "") name || PyStr.contains (String "013" "") name
  then Some "Detected newline in header value. This is a potential security problem"
  else None.

Definition strict_send_file_env : env :=
  {| time_at := fun _ => sample_time;
     uuid_at := fun _ => sample_uuid;
     tmp_path := "/tmp/tmpk3v9x2.html";
     open_error := None;
     write_error := None;
     partial_write := 0;
     unlink_error := None;
     pdfkit_config := None;
     from_file := sample_from_file pdf_ok;
     format_exc := fun e => e;
     send_file_error := refuses_line_break |}.

Definition two_line_id : attrs :=
  {[ "certificate_id" := "a
b" ]}.

(** Two behaviours of [pdfkit.configuration]: the path is accepted, or it
    cannot be opened. *)
Definition configuration_ok (path : string) (fs : gmap string string)
    : outcome string := Ret path.

Definition configuration_refused (path : string) (fs : gmap string string)
    : outcome string := Raise ("No wkhtmltopdf executable found: " ++ path).

(** A Windows machine with wkhtmltopdf at the last of the four places. *)
Definition windows_world : world :=
  set_files (insert "C:\wkhtmltopdf\bin\wkhtmltopdf.exe" "MZ") world0.

(** * Properties *)

(** ** The definitions on concrete inputs *)

Example lower_ascii : PyStr.lower "PASSED - Ok" = "passed - ok".
Proof. reflexivity. Qed.

Example lower_latin1 :
  map (fun n => N_of_ascii (PyStr.lower_char (ascii_of_N n))) [192; 215; 222; 223]%N
  = [224; 215; 254; 223]%N.
Proof. reflexivity. Qed.

Example contains_inside : PyStr.contains "pass" "failed but passed retry" = true.
Proof. reflexivity. Qed.

Example contains_none : PyStr.contains "error" "verified" = false.
Proof. reflexivity. Qed.

Example slice_long : PyStr.slice_to 10 "2024-03-15 14:30:00" = "2024-03-15".
Proof. reflexivity. Qed.

Example slice_short : PyStr.slice_to 10 "abc" = "abc".
Proof. reflexivity. Qed.

Example clock_formats :
  Clock.strftime_display sample_time = "2024-03-15 14:30:00" /\
  Clock.strftime_compact sample_time = "20240315_143000" /\
  Clock.isoformat sample_time = "2024-03-15T14:30:00.000120".
Proof. repeat split; vm_compute; reflexivity. Qed.

Example uuid_hex : Uuid.hex sample_uuid = "deadbeef4a1b4c2d8e3f5a6b7c8d9e0f".
Proof. vm_compute. reflexivity. Qed.

Example uuid_hex_padded : Uuid.hex 255 = "000000000000000000000000000000ff".
Proof. vm_compute. reflexivity. Qed.

Example synth_cert_id_sample : synth_cert_id sample_uuid = "CERT-DEADBEEF".
Proof. vm_compute. reflexivity. Qed.

Example b64encode_pdf : Base64.b64encode "%PDF-1.4" = "JVBERi0xLjQ=".
Proof. vm_compute. reflexivity. Qed.

Example b64encode_two : Base64.b64encode "Ma" = "TWE=".
Proof. vm_compute. reflexivity. Qed.

Example default_status_badge :
  get_status_badge_style (Some (get ∅ "final_status" "VERIFIED")) = style_other.
Proof. reflexivity. Qed.

(** ** Strings *)

Section StringFacts.
Import PyStr.

(** [String.append] is kept folded by [simpl]; its two equations. *)
Lemma app_nil_l (t : string) : "" ++ t = t.
Proof. reflexivity. Qed.

Lemma app_cons (c : ascii) (s t : string) : String c s ++ t = String c (s ++ t).
Proof. reflexivity. Qed.

Lemma app_empty_r (s : string) : s ++ "" = s.
Proof. induction s as [|c s IH]; [reflexivity | now rewrite app_cons, IH]. Qed.

Lemma app_assoc' (a b c : string) : (a ++ b) ++ c = a ++ b ++ c.
Proof. induction a as [|x a IH]; [reflexivity | now rewrite !app_cons, IH]. Qed.

Lemma startswith_spec needle hay :
  startswith needle hay = true <-> exists post, hay = needle ++ post.
Proof.
  revert hay. induction needle as [|a n IH]; intros hay; simpl.
  - split; [intros _; now exists hay | reflexivity].
  - destruct hay as [|b h].
    + split; [discriminate | intros [post H]; discriminate].
    + destruct (Ascii.eqb_spec a b) as [->|Hne].
      * rewrite IH. split; intros [post H]; exists post.
        -- now rewrite app_cons, H.
        -- rewrite app_cons in H. now injection H.
      * split; [discriminate |].
        intros [post H]. rewrite app_cons in H. injection H as Hab _. now destruct Hne.
Qed.

Lemma contains_spec needle hay :
  contains needle hay = true <-> occurs needle hay.
Proof.
  induction hay as [|b h IH]; simpl.
  - rewrite orb_false_r, startswith_spec. split.
    + intros [post H]. now exists "", post.
    + intros [[|c pre] [post H]]; [now exists post | discriminate].
  - rewrite orb_true_iff, IH, startswith_spec. split.
    + intros [[post H] | [pre [post H]]].
      * now exists "", post.
      * exists (String b pre), post. now rewrite app_cons, H.
    + intros [[|c pre] [post H]].
      * left. now exists post.
      * right. rewrite app_cons in H. injection H as _ H. now exists pre, post.
Qed.

Lemma lower_app (a b : string) : lower (a ++ b) = lower a ++ lower b.
Proof. induction a as [|x a IH]; [reflexivity | rewrite app_cons; simpl; now rewrite IH]. Qed.

Lemma lower_char_idem (c : ascii) : lower_char (lower_char c) = lower_char c.
Proof. destruct c as [[] [] [] [] [] [] [] []]; reflexivity. Qed.

Lemma lower_idem (s : string) : lower (lower s) = lower s.
Proof. induction s as [|c s IH]; simpl; [reflexivity | now rewrite lower_char_idem, IH]. Qed.

(** A word that [lower] leaves alone and that occurs in [s] occurs in
    [lower s]. *)
Lemma occurs_lower (tok s : string) :
  lower tok = tok -> occurs tok s -> occurs tok (lower s).
Proof.
  intros Htok (pre & post & ->). exists (lower pre), (lower post).
  now rewrite !lower_app, Htok.
Qed.

Lemma occurs_nonempty (tok s : string) : tok <> "" -> occurs tok s -> s <> "".
Proof.
  intros Htok (pre & post & ->) H.
  destruct pre; [destruct tok; [congruence | discriminate] | discriminate].
Qed.

Lemma slice_to_all (n : nat) (s : string) :
  String.length s <= n -> slice_to n s = s.
Proof.
  revert s. induction n as [|n IH]; intros [|c s]; simpl; try reflexivity; intros H.
  - lia.
  - rewrite IH; [reflexivity | lia].
Qed.

Lemma slice_to_length (n : nat) (s : string) :
  String.length (slice_to n s) = Nat.min n (String.length s).
Proof.
  revert s. induction n as [|n IH]; intros [|c s]; simpl; try reflexivity.
  now rewrite IH.
Qed.

Lemma slice_to_prefix (n : nat) (s : string) :
  exists rest, s = slice_to n s ++ rest.
Proof.
  revert s. induction n as [|n IH]; intros s; simpl.
  - now exists s.
  - destruct s as [|c s]; [now exists "" |].
    destruct (IH s) as [rest H]. exists rest. now rewrite app_cons, <- H.
Qed.

Lemma join_app (l1 l2 : list string) : join (l1 ++ l2) = join l1 ++ join l2.
Proof.
  induction l1 as [|a l1 IH]; simpl; [reflexivity |].
  now rewrite IH, app_assoc'.
Qed.

End StringFacts.

(** ** The status badge *)

Lemma has_success_token_spec (s : string) :
  has_success_token s = true <-> success_word s.
Proof.
  unfold has_success_token, success_word.
  rewrite !orb_true_iff, !contains_spec. tauto.
Qed.

Lemma has_failure_token_spec (s : string) :
  has_failure_token s = true <-> failure_word s.
Proof.
  unfold has_failure_token, failure_word.
  rewrite !orb_true_iff, !contains_spec. tauto.
Qed.

Lemma success_word_lower (s : string) :
  success_word s -> success_word (PyStr.lower s).
Proof.
  unfold success_word. intros [H | [H | H]]; [left | right; left | right; right];
    (apply occurs_lower; [reflexivity | exact H]).
Qed.

Lemma failure_word_lower (s : string) :
  failure_word s -> failure_word (PyStr.lower s).
Proof.
  unfold failure_word. intros [H | H]; [left | right];
    (apply occurs_lower; [reflexivity | exact H]).
Qed.

Lemma success_word_nonempty (s : string) : success_word s -> s <> "".
Proof.
  intros [H | [H | H]]; revert H; apply occurs_nonempty; discriminate.
Qed.

Lemma styles_distinct :
  style_none <> style_success /\ style_none <> style_failure /\
  style_none <> style_other /\ style_success <> style_failure /\
  style_success <> style_other /\ style_failure <> style_other.
Proof. repeat split; discriminate. Qed.

(** The two branches of [get_status_badge_style]. *)
Lemma badge_style_cases (status : option string) :
  let s := default "" status in
  let low := PyStr.lower s in
  (s = "" /\ get_status_badge_style status = style_none) \/
  (s <> "" /\
   get_status_badge_style status =
     if has_success_token low then style_success
     else if has_failure_token low then style_failure
     else style_other).
Proof.
  destruct status as [[|c st]|].
  - left; split; reflexivity.
  - right; split; [discriminate | reflexivity].
  - left; split; reflexivity.
Qed.

Lemma no_word_in_empty : ~ success_word "" /\ ~ failure_word "".
Proof.
  split.
  - intros H. now apply success_word_nonempty in H.
  - intros [H | H]; now apply occurs_nonempty in H.
Qed.

Lemma badge_style_success (status : option string) :
  success_word (PyStr.lower (default "" status)) ->
  get_status_badge_style status = style_success.
Proof.
  intros W. destruct (badge_style_cases status) as [[E _] | [_ H]].
  - rewrite E in W. now apply no_word_in_empty in W.
  - apply has_success_token_spec in W. now rewrite H, W.
Qed.

(** C1, as the code has it.  [get_status_badge_style] is a total function
    from an optional status text to FOUR styles, pairwise distinct: absent or
    empty text gives the grey style; otherwise, on the lower-cased text, a
    success word gives the success style, else a failure word gives the
    failure style, else the amber style.  A text with neither kind of word,
    absent or not, never gets the success or the failure style. *)
Theorem C1_status_style_four_way (status : option string) :
  let s := default "" status in
  let low := PyStr.lower s in
  let style := get_status_badge_style status in
  (s = "" -> style = style_none) /\
  (success_word low -> style = style_success) /\
  (~ success_word low -> failure_word low -> style = style_failure) /\
  (s <> "" -> ~ success_word low -> ~ failure_word low -> style = style_other) /\
  (~ success_word low -> ~ failure_word low ->
     style <> style_success /\ style <> style_failure) /\
  NoDup [style_none; style_success; style_failure; style_other].
Proof.
  intros s low style.
  pose proof styles_distinct as (D1 & D2 & D3 & D4 & D5 & D6).
  pose proof (badge_style_cases status) as Hs. cbv zeta in Hs.
  fold s low style in Hs.
  assert (Hempty : s = "" -> ~ success_word low /\ ~ failure_word low).
  { intros E. subst low. rewrite E. exact no_word_in_empty. }
  assert (Hsucc : success_word low -> has_success_token low = true)
    by apply has_success_token_spec.
  assert (Hfail : failure_word low -> has_failure_token low = true)
    by apply has_failure_token_spec.
  assert (Hnsucc : ~ success_word low -> has_success_token low = false).
  { intros H. destruct (has_success_token low) eqn:B; [|reflexivity].
    now apply has_success_token_spec in B. }
  assert (Hnfail : ~ failure_word low -> has_failure_token low = false).
  { intros H. destruct (has_failure_token low) eqn:B; [|reflexivity].
    now apply has_failure_token_spec in B. }
  repeat split.
  - intros E. destruct Hs as [[_ H] | [H _]]; [exact H | contradiction].
  - intros W. destruct Hs as [[E _] | [_ H]]; [now apply Hempty in E |].
    now rewrite H, Hsucc.
  - intros NW W. destruct Hs as [[E _] | [_ H]]; [now apply Hempty in E |].
    now rewrite H, Hnsucc, Hfail.
  - intros NE NW NF. destruct Hs as [[E _] | [_ H]]; [contradiction |].
    now rewrite H, Hnsucc, Hnfail.
  - destruct Hs as [[_ Hst] | [_ Hst]]; rewrite Hst; [congruence |].
    rewrite Hnsucc, Hnfail by assumption. congruence.
  - destruct Hs as [[_ Hst] | [_ Hst]]; rewrite Hst; [congruence |].
    rewrite Hnsucc, Hnfail by assumption. congruence.
  - repeat constructor; rewrite ?elem_of_cons, ?elem_of_nil; intuition congruence.
Qed.

Lemma not_success_word (s : string) :
  has_success_token s = false -> ~ success_word s.
Proof. intros B W. apply has_success_token_spec in W. congruence. Qed.

Lemma not_failure_word (s : string) :
  has_failure_token s = false -> ~ failure_word s.
Proof. intros B W. apply has_failure_token_spec in W. congruence. Qed.

Lemma C1_status_style_four_way_witness :
  get_status_badge_style (Some "PASSED") = style_success /\
  get_status_badge_style (Some "Failed - error") = style_failure /\
  get_status_badge_style (Some "pending") = style_other /\
  get_status_badge_style None = style_none.
Proof.
  split; [| split; [| split]].
  - apply (C1_status_style_four_way (Some "PASSED")).
    left. exists "", "ed". reflexivity.
  - apply (C1_status_style_four_way (Some "Failed - error")).
    + apply not_success_word. reflexivity.
    + left. exists "", "ed - error". reflexivity.
  - apply (C1_status_style_four_way (Some "pending")).
    + discriminate.
    + apply not_success_word. reflexivity.
    + apply not_failure_word. reflexivity.
  - apply (C1_status_style_four_way None). reflexivity.
Defined.

(** C1 as the specification words it fails: an absent status and an
    unrecognised one ("pending" holds no success and no failure word) get
    two different styles, so there is no single neutral style and the styles
    are not three. *)
Lemma C1_counterexample :
  ~ success_word (PyStr.lower "pending") /\
  ~ failure_word (PyStr.lower "pending") /\
  get_status_badge_style None = style_none /\
  get_status_badge_style (Some "") = style_none /\
  get_status_badge_style (Some "pending") = style_other /\
  get_status_badge_style (Some "pending") <> get_status_badge_style None.
Proof.
  repeat split; try reflexivity.
  - apply not_success_word. reflexivity.
  - apply not_failure_word. reflexivity.
  - discriminate.
Qed.

(** C4.  The success words are looked for before the failure words: a
    status that holds a success word ("pass", "success", "complete") and a
    failure word ("fail", "error"), as written or after lower-casing, gets
    the success style. *)
Theorem C4_success_checked_first (status : string) :
  success_word status \/ success_word (PyStr.lower status) ->
  failure_word status \/ failure_word (PyStr.lower status) ->
  get_status_badge_style (Some status) = style_success.
Proof.
  intros Hs _.
  assert (W : success_word (PyStr.lower status)).
  { destruct Hs as [H | H]; [now apply success_word_lower | exact H]. }
  now apply (badge_style_success (Some status)).
Qed.

Lemma C4_success_checked_first_witness :
  get_status_badge_style (Some "failed but passed retry") = style_success /\
  get_status_badge_style (Some "ERROR, then SUCCESS") = style_success.
Proof.
  split.
  - apply C4_success_checked_first.
    + left. left. exists "failed but ", "ed retry". reflexivity.
    + left. left. exists "", "ed but passed retry". reflexivity.
  - apply C4_success_checked_first.
    + right. right. left. exists "error, then ", "". reflexivity.
    + right. right. exists "", ", then success". reflexivity.
Defined.

(** ** The composer *)

Lemma fill_app (L : locals) (data : attrs) (l r : list part) :
  fill L data (l ++ r)%list = fill L data l ++ fill L data r.
Proof. unfold fill. now rewrite map_app, join_app. Qed.

Lemma fill_cons (L : locals) (data : attrs) (p : part) (r : list part) :
  fill L data (p :: r) = part_text L data p ++ fill L data r.
Proof. reflexivity. Qed.

(** The document around one hole. *)
Lemma fill_at_hole (L : locals) (data : attrs) (l r : list part) (h : slot) :
  fill L data (l ++ Hole h :: r)%list
  = fill L data l ++ slot_value L data h ++ fill L data r.
Proof. now rewrite fill_app, fill_cons. Qed.

Lemma endswith_spec (suffix hay : string) :
  endswith suffix hay = true -> exists a, hay = a ++ suffix.
Proof.
  induction hay as [|c hay IH]; simpl; rewrite orb_true_iff.
  - intros [H | H]; [|discriminate]. apply String.eqb_eq in H. now exists "".
  - intros [H | H].
    + apply String.eqb_eq in H. now exists "".
    + destruct (IH H) as [a ->]. now exists (String c a).
Qed.

Lemma in_contextb_sound (before : string) (h : slot) (after : string)
    (t : list part) :
  in_contextb before h after t = true -> in_context before h after t.
Proof.
  induction t as [|p t IH]; simpl; [discriminate |].
  rewrite orb_true_iff. intros [H | H].
  - destruct p as [x | ?]; [|discriminate].
    destruct t as [|[? | h'] [|[y | ?] r]]; try discriminate.
    rewrite !andb_true_iff in H. destruct H as [[H1 H2] H3].
    apply endswith_spec in H1. destruct H1 as [a ->].
    apply bool_decide_eq_true in H2. subst h'.
    apply startswith_spec in H3. destruct H3 as [b ->].
    now exists [], a, b, r.
  - destruct (IH H) as (l & a & b & r & ->).
    now exists (p :: l), a, b, r.
Qed.

Lemma fill_in_context (L : locals) (data : attrs) (before : string) (h : slot)
    (after : string) (t : list part) :
  in_context before h after t ->
  occurs (before ++ slot_value L data h ++ after) (fill L data t).
Proof.
  intros (l & a & b & r & ->).
  exists (fill L data l ++ a), (b ++ fill L data r).
  rewrite fill_app, !fill_cons. simpl. now rewrite !app_assoc'.
Qed.

Lemma field_keys_hole (k : string) (t : list part) :
  In k (field_keys t) -> exists l r, t = (l ++ Hole (Field k) :: r)%list.
Proof.
  induction t as [|p t IH]; simpl; [tauto |].
  assert (Hrec : In k (field_keys t) -> exists l r, p :: t = (l ++ Hole (Field k) :: r)%list).
  { intros H. destruct (IH H) as (l & r & ->). now exists (p :: l), r. }
  destruct p as [x | []]; try exact Hrec.
  intros [<- | H]; [now exists [], t | now apply Hrec].
Qed.

(** The 32 names of the template, as the source lists them. *)
Lemma na_fields_listed :
  na_fields =
  ["technician_name";
   "device_type"; "manufacturer"; "model"; "serial_number"; "asset_tag";
   "capacity"; "interface"; "firmware_version";
   "sanitization_method"; "standard_compliance"; "number_of_passes";
   "algorithm"; "start_time"; "duration"; "software_used"; "software_version";
   "pre_wipe_verification"; "post_wipe_verification"; "verification_method";
   "sectors_processed"; "data_remnants"; "os_installation_status";
   "os_version"; "boot_test_result";
   "customer_name"; "work_order"; "location"; "witness_name"; "temperature";
   "humidity"; "notes"].
Proof. vm_compute. reflexivity. Qed.

Lemma html_nonempty (now : Clock.datetime) (uuid : N) (data : attrs) :
  create_certificate_html now uuid data <> "".
Proof.
  unfold create_certificate_html.
  assert (H : exists s r, template = Text (String "010" s) :: r).
  { eexists _, _. vm_compute. reflexivity. }
  destruct H as (s & r & ->). rewrite fill_cons. discriminate.
Qed.

Lemma title_context : in_context title_open TitleCertId "</title>" template.
Proof. apply in_contextb_sound. vm_compute. reflexivity. Qed.

Lemma info_id_context : in_context info_id_open InfoCertId "</span>" template.
Proof. apply in_contextb_sound. vm_compute. reflexivity. Qed.

Lemma qr_context : in_context qr_open QrCertId "" template.
Proof. apply in_contextb_sound. vm_compute. reflexivity. Qed.

Lemma signature_date_context (who : signer) :
  in_context signature_date_open (date_slot who) "</div>" template.
Proof. destruct who; apply in_contextb_sound; vm_compute; reflexivity. Qed.

(** The last line of the footer (line 748) holds three holes in a row. *)
Lemma footer_line :
  exists l a b,
    template =
    (l ++ [Text (a ++ "Generated: "); Hole FooterGenerated;
           Text " | Document ID: "; Hole FooterDocumentId;
           Text " | Verification: secure-verify.com/"; Hole FooterVerifyLink;
           Text b])%list.
Proof.
  exists (firstn 84 template), (chop 11 (text_at 84 template)),
         (text_at 90 template).
  vm_compute. reflexivity.
Qed.

Lemma footer_in_document (L : locals) (data : attrs) :
  occurs ("Generated: " ++ current_time L ++ " | Document ID: " ++ cert_id L
          ++ " | Verification: secure-verify.com/" ++ PyStr.lower (cert_id L))
         (fill L data template).
Proof.
  destruct footer_line as (l & a & b & ->).
  exists (fill L data l ++ a), b.
  rewrite fill_app, !fill_cons. simpl.
  change (fill L data []) with "". now rewrite app_empty_r, !app_assoc'.
Qed.

Lemma title_in_document (L : locals) (data : attrs) :
  occurs (title_open ++ cert_id L ++ "</title>") (fill L data template).
Proof. apply (fill_in_context L data _ _ _ _ title_context). Qed.

Lemma info_id_in_document (L : locals) (data : attrs) :
  occurs (info_id_open ++ cert_id L ++ "</span>") (fill L data template).
Proof. apply (fill_in_context L data _ _ _ _ info_id_context). Qed.

Lemma qr_in_document (L : locals) (data : attrs) :
  occurs (qr_open ++ cert_id L) (fill L data template).
Proof.
  pose proof (fill_in_context L data _ _ _ _ qr_context) as H.
  simpl in H. now rewrite app_empty_r in H.
Qed.

Lemma footer_ids_in_document (L : locals) (data : attrs) :
  occurs (" | Document ID: " ++ cert_id L ++ " | Verification: secure-verify.com/"
          ++ PyStr.lower (cert_id L)) (fill L data template).
Proof.
  destruct (footer_in_document L data) as (pre & post & H).
  exists (pre ++ "Generated: " ++ current_time L), post.
  rewrite H. now rewrite !app_assoc'.
Qed.

(** ** The identifier *)

Lemma hex_go_length (w : nat) (n : N) (acc : string) :
  String.length (Uuid.hex_go w n acc) = w + String.length acc.
Proof.
  revert n acc. induction w as [|w IH]; intros n acc; simpl; [reflexivity |].
  rewrite IH. simpl. lia.
Qed.

Lemma hex_digit_upper (d : N) :
  (d < 16)%N -> Uuid.is_upper_hex (PyStr.upper_char (Uuid.hex_digit d)) = true.
Proof.
  intros H.
  assert (D : In d (map N.of_nat (seq 0 16))).
  { replace d with (N.of_nat (N.to_nat d)) by apply N2Nat.id.
    apply in_map, in_seq. lia. }
  simpl in D. repeat (destruct D as [<- | D]; [reflexivity |]). destruct D.
Qed.

Lemma hex_go_upper (w : nat) (n : N) (acc : string) :
  PyStr.all_chars Uuid.is_upper_hex (PyStr.upper acc) = true ->
  PyStr.all_chars Uuid.is_upper_hex (PyStr.upper (Uuid.hex_go w n acc)) = true.
Proof.
  revert n acc. induction w as [|w IH]; intros n acc Hacc; simpl; [exact Hacc |].
  apply IH. simpl. rewrite hex_digit_upper, Hacc; [reflexivity |].
  apply N.mod_lt. discriminate.
Qed.

Lemma upper_slice_to (k : nat) (s : string) :
  PyStr.upper (PyStr.slice_to k s) = PyStr.slice_to k (PyStr.upper s).
Proof.
  revert s. induction k as [|k IH]; intros [|c s]; simpl; try reflexivity.
  now rewrite IH.
Qed.

Lemma upper_length (s : string) : String.length (PyStr.upper s) = String.length s.
Proof. induction s as [|c s IH]; simpl; [reflexivity | now rewrite IH]. Qed.

Lemma all_chars_slice_to (p : ascii -> bool) (k : nat) (s : string) :
  PyStr.all_chars p s = true -> PyStr.all_chars p (PyStr.slice_to k s) = true.
Proof.
  revert s. induction k as [|k IH]; intros [|c s]; simpl; try reflexivity.
  rewrite !andb_true_iff. intros [H1 H2]. split; [exact H1 | now apply IH].
Qed.

(** The synthesized token: eight characters, each one of 0-9 and A-F. *)
Lemma token_shape (uuid : N) :
  let token := PyStr.upper (PyStr.slice_to 8 (Uuid.hex uuid)) in
  String.length token = 8 /\ PyStr.all_chars Uuid.is_upper_hex token = true.
Proof.
  split.
  - rewrite upper_length, slice_to_length. unfold Uuid.hex.
    rewrite hex_go_length. reflexivity.
  - rewrite upper_slice_to. apply all_chars_slice_to, hex_go_upper. reflexivity.
Qed.

Lemma cert_id_resolved (now : Clock.datetime) (uuid : N) (data : attrs) :
  cert_id (html_locals now uuid data) =
  match data !! "certificate_id" with
  | Some v => v
  | None => "CERT-" ++ PyStr.upper (PyStr.slice_to 8 (Uuid.hex uuid))
  end.
Proof. unfold html_locals, get. simpl. now destruct (data !! "certificate_id"). Qed.

(** One run of the first lines of the composer: one reading of the clock,
    one UUID drawn, no exception. *)
Lemma create_certificate_html_m_run (E : env) (data : attrs) (w : world) :
  create_certificate_html_m E data w =
  (Ret (create_certificate_html (time_at E (clock_reads w))
                                (uuid_at E (uuid_reads w)) data),
   {| files := files w; log := log w; clock_reads := S (clock_reads w);
      uuid_reads := S (uuid_reads w); renderer_calls := renderer_calls w |}).
Proof. reflexivity. Qed.

(** C2, as the code has it.  The identifier is the value under
    "certificate_id" whenever the key is present, the empty text included;
    with no such key it is "CERT-" followed by eight upper-case hexadecimal
    digits of one UUID.  It is computed once per call of the composer (one
    UUID drawn): the title, the certificate-info field, the QR placeholder
    and the footer's Document ID hold it as it is, the verification link
    holds it lower-cased. *)
Theorem C2_identifier_resolved_once (now : Clock.datetime) (uuid : N)
    (data : attrs) (E : env) (w : world) :
  let L := html_locals now uuid data in
  let html := create_certificate_html now uuid data in
  let token := PyStr.upper (PyStr.slice_to 8 (Uuid.hex uuid)) in
  cert_id L = match data !! "certificate_id" with
              | Some v => v
              | None => "CERT-" ++ token
              end /\
  String.length token = 8 /\
  PyStr.all_chars Uuid.is_upper_hex token = true /\
  uuid_reads (create_certificate_html_m E data w).2 = S (uuid_reads w) /\
  Forall (fun h => slot_value L data h = cert_id L)
         [TitleCertId; InfoCertId; QrCertId; FooterDocumentId] /\
  slot_value L data FooterVerifyLink = PyStr.lower (cert_id L) /\
  occurs (title_open ++ cert_id L ++ "</title>") html /\
  occurs (info_id_open ++ cert_id L ++ "</span>") html /\
  occurs (qr_open ++ cert_id L) html /\
  occurs (" | Document ID: " ++ cert_id L ++ " | Verification: secure-verify.com/"
          ++ PyStr.lower (cert_id L)) html.
Proof.
  intros L html token. split; [apply cert_id_resolved |].
  split; [apply token_shape |]. split; [apply token_shape |].
  split; [reflexivity |]. split; [repeat constructor |]. split; [reflexivity |].
  subst html. unfold create_certificate_html. fold L.
  split; [apply title_in_document |]. split; [apply info_id_in_document |].
  split; [apply qr_in_document | apply footer_ids_in_document].
Qed.

(** C2 as the specification words it fails twice: an empty "certificate_id"
    is used as it is, no identifier is synthesized for it; and the
    verification link does not hold the value the other places hold. *)
Lemma C2_counterexample :
  (let data : attrs := {[ "certificate_id" := "" ]} in
   let L := html_locals sample_time sample_uuid data in
   cert_id L = "" /\ synth_cert_id sample_uuid = "CERT-DEADBEEF") /\
  (let L := html_locals sample_time sample_uuid sample_data in
   slot_value L sample_data FooterDocumentId = "CERT-TEST-1" /\
   slot_value L sample_data FooterVerifyLink = "cert-test-1" /\
   slot_value L sample_data FooterVerifyLink <> slot_value L sample_data FooterDocumentId).
Proof.
  split; [split; vm_compute; reflexivity |].
  split; [vm_compute; reflexivity |]. split; [vm_compute; reflexivity |].
  vm_compute. discriminate.
Qed.

(** C9.  In every composed document the verification link is
    secure-verify.com/ followed by the lower-cased identifier, while the
    title, the certificate-info field, the QR placeholder and the footer's
    Document ID hold the identifier as it is; the five places agree after
    lower-casing. *)
Theorem C9_verify_link_lower_cased (now : Clock.datetime) (uuid : N)
    (data : attrs) :
  let L := html_locals now uuid data in
  let html := create_certificate_html now uuid data in
  occurs (" | Document ID: " ++ cert_id L ++ " | Verification: secure-verify.com/"
          ++ PyStr.lower (cert_id L)) html /\
  occurs (title_open ++ cert_id L ++ "</title>") html /\
  occurs (info_id_open ++ cert_id L ++ "</span>") html /\
  occurs (qr_open ++ cert_id L) html /\
  slot_value L data FooterVerifyLink = PyStr.lower (cert_id L) /\
  Forall (fun h => slot_value L data h = cert_id L)
         [TitleCertId; InfoCertId; QrCertId; FooterDocumentId] /\
  Forall (fun h => PyStr.lower (slot_value L data h) = PyStr.lower (cert_id L))
         id_slots.
Proof.
  intros L html. subst html. unfold create_certificate_html. fold L.
  split; [apply footer_ids_in_document |]. split; [apply title_in_document |].
  split; [apply info_id_in_document |]. split; [apply qr_in_document |].
  split; [reflexivity |]. split; [repeat constructor |].
  unfold id_slots. repeat constructor. apply lower_idem.
Qed.

Lemma signature_name_context (h : slot) :
  h = SigTechnicianName \/ h = SigSupervisorName ->
  in_context signature_name_open h "</div>" template.
Proof. intros [-> | ->]; apply in_contextb_sound; vm_compute; reflexivity. Qed.

Lemma status_context : in_context status_open InfoStatus "</span>" template.
Proof. apply in_contextb_sound. vm_compute. reflexivity. Qed.

(** C3, as the code has it.  For every attribute set, the empty one
    included, the composer returns (it is a total function, and its
    effectful start raises nothing) a document that is not empty.  Each of
    the 32 attributes read with the default 'N/A' that the caller left out is
    the text "N/A" at its hole of the template.  The other places have
    defaults of their own: with no "technician_name" the signature box shows
    "John Smith", with no "supervisor_name" it shows "Jane Doe", with no
    "final_status" the badge shows "VERIFIED". *)
Theorem C3_compose_defaults (now : Clock.datetime) (uuid : N) (data : attrs)
    (E : env) (w : world) :
  let L := html_locals now uuid data in
  let html := create_certificate_html now uuid data in
  (exists html', (create_certificate_html_m E data w).1 = Ret html' /\ html' <> "") /\
  html <> "" /\
  Forall (fun k =>
            data !! k = None ->
            slot_value L data (Field k) = "N/A" /\
            exists l r, template = (l ++ Hole (Field k) :: r)%list /\
                        html = fill L data l ++ "N/A" ++ fill L data r)
         na_fields /\
  (data !! "technician_name" = None ->
   occurs (signature_name_open ++ "John Smith" ++ "</div>") html) /\
  (data !! "supervisor_name" = None ->
   occurs (signature_name_open ++ "Jane Doe" ++ "</div>") html) /\
  (data !! "final_status" = None ->
   occurs (status_open ++ "VERIFIED" ++ "</span>") html).
Proof.
  intros L html. split; [| split; [| split; [| split; [| split]]]].
  - rewrite create_certificate_html_m_run. eexists. split; [reflexivity |].
    apply html_nonempty.
  - apply html_nonempty.
  - apply Forall_forall. intros k Hk Hnone. apply list_elem_of_In in Hk. split.
    + simpl. unfold get. now rewrite Hnone.
    + destruct (field_keys_hole k template Hk) as (l & r & Ht).
      exists l, r. split; [exact Ht |].
      subst html. unfold create_certificate_html. fold L.
      rewrite Ht at 1. rewrite fill_at_hole. simpl. unfold get. now rewrite Hnone.
  - intros Hnone.
    pose proof (fill_in_context L data _ _ _ _
                  (signature_name_context SigTechnicianName (or_introl eq_refl))) as H.
    simpl in H. unfold get in H. now rewrite Hnone in H.
  - intros Hnone.
    pose proof (fill_in_context L data _ _ _ _
                  (signature_name_context SigSupervisorName (or_intror eq_refl))) as H.
    simpl in H. unfold get in H. now rewrite Hnone in H.
  - intros Hnone.
    pose proof (fill_in_context L data _ _ _ _ status_context) as H.
    simpl in H. unfold get in H. now rewrite Hnone in H.
Qed.

Lemma C3_compose_defaults_witness :
  let L := html_locals sample_time sample_uuid ∅ in
  let html := create_certificate_html sample_time sample_uuid ∅ in
  html <> "" /\
  (exists l r, template = (l ++ Hole (Field "serial_number") :: r)%list /\
               html = fill L ∅ l ++ "N/A" ++ fill L ∅ r) /\
  occurs (signature_name_open ++ "John Smith" ++ "</div>") html /\
  occurs (status_open ++ "VERIFIED" ++ "</span>") html.
Proof.
  destruct (C3_compose_defaults sample_time sample_uuid ∅ (sample_env pdf_ok None)
              world0) as (_ & H1 & H2 & H3 & _ & H5).
  split; [exact H1 |]. split; [| split; [exact (H3 eq_refl) | exact (H5 eq_refl)]].
  rewrite Forall_forall in H2.
  apply (H2 "serial_number"); [| reflexivity].
  apply list_elem_of_In. rewrite na_fields_listed. simpl. tauto.
Defined.

(** C3 as the specification words it fails: with nothing supplied, the
    supervisor's name, which the template reads once, is rendered "Jane
    Doe", not "N/A"; the technician's name is "N/A" in the information bar
    and "John Smith" in the signature box; the status is "VERIFIED". *)
Lemma C3_counterexample :
  let data : attrs := ∅ in
  let L := html_locals sample_time sample_uuid data in
  let html := create_certificate_html sample_time sample_uuid data in
  data !! "supervisor_name" = None /\
  ~ In "supervisor_name" na_fields /\
  slot_value L data SigSupervisorName = "Jane Doe" /\
  occurs (signature_name_open ++ "Jane Doe" ++ "</div>") html /\
  slot_value L data (Field "technician_name") = "N/A" /\
  slot_value L data SigTechnicianName = "John Smith" /\
  occurs (signature_name_open ++ "John Smith" ++ "</div>") html /\
  slot_value L data InfoStatus = "VERIFIED" /\
  "Jane Doe" <> "N/A".
Proof.
  cbv zeta. split; [reflexivity |]. split.
  { rewrite na_fields_listed. simpl. intuition discriminate. }
  split; [reflexivity |]. split.
  { exact (fill_in_context (html_locals sample_time sample_uuid ∅) ∅ _ _ _ _
             (signature_name_context SigSupervisorName (or_intror eq_refl))). }
  split; [reflexivity |]. split; [reflexivity |]. split.
  { exact (fill_in_context (html_locals sample_time sample_uuid ∅) ∅ _ _ _ _
             (signature_name_context SigTechnicianName (or_introl eq_refl))). }
  split; [reflexivity | discriminate].
Qed.

(** C10.  When "technician_date" (resp. "supervisor_date") is absent, the
    signature date is the first ten characters of the issue date: of the
    caller's "issue_date" if present, else of the formatted clock reading;
    a shorter issue date is taken whole, and no length raises. *)
Theorem C10_signature_date_default (now : Clock.datetime) (uuid : N)
    (data : attrs) (who : signer) :
  data !! date_key who = None ->
  let L := html_locals now uuid data in
  let date := slot_value L data (date_slot who) in
  issue_date L = default (Clock.strftime_display now) (data !! "issue_date") /\
  date = PyStr.slice_to 10 (issue_date L) /\
  (String.length (issue_date L) <= 10 -> date = issue_date L) /\
  String.length date = Nat.min 10 (String.length (issue_date L)) /\
  (exists rest, issue_date L = date ++ rest) /\
  occurs (signature_date_open ++ date ++ "</div>")
         (create_certificate_html now uuid data).
Proof.
  intros Hnone L date.
  assert (Hd : date = PyStr.slice_to 10 (issue_date L)).
  { subst date. destruct who; simpl in *; unfold get; now rewrite Hnone. }
  split; [reflexivity |]. split; [exact Hd |]. split; [| split; [| split]].
  - intros Hlen. rewrite Hd. now apply slice_to_all.
  - rewrite Hd. apply slice_to_length.
  - rewrite Hd. apply slice_to_prefix.
  - apply (fill_in_context L data _ _ _ _ (signature_date_context who)).
Qed.

Lemma C10_signature_date_default_witness :
  (let data : attrs := {[ "issue_date" := "2024-03-15 14:30:00" ]} in
   slot_value (html_locals sample_time sample_uuid data) data SigTechnicianDate
   = "2024-03-15") /\
  (let data : attrs := {[ "issue_date" := "2024" ]} in
   slot_value (html_locals sample_time sample_uuid data) data SigSupervisorDate
   = "2024") /\
  slot_value (html_locals sample_time sample_uuid ∅) ∅ SigTechnicianDate
  = "2024-03-15".
Proof.
  split; [| split].
  - pose proof (C10_signature_date_default sample_time sample_uuid
                  {[ "issue_date" := "2024-03-15 14:30:00" ]} Technician eq_refl) as H.
    cbv zeta in H. destruct H as (_ & H & _).
    etransitivity; [exact H | vm_compute; reflexivity].
  - pose proof (C10_signature_date_default sample_time sample_uuid
                  {[ "issue_date" := "2024" ]} Supervisor eq_refl) as H.
    cbv zeta in H. destruct H as (_ & H & _).
    etransitivity; [exact H | vm_compute; reflexivity].
  - pose proof (C10_signature_date_default sample_time sample_uuid ∅
                  Technician eq_refl) as H.
    cbv zeta in H. destruct H as (_ & H & _).
    etransitivity; [exact H | vm_compute; reflexivity].
Defined.

(** ** The render pipeline *)

#[local] Opaque create_certificate_html.

Ltac run_effects :=
  unfold try_except, try_finally, create_certificate_html_m, get_json,
    logger, now, uuid4, named_temporary_file, file_write, pdfkit_from_file,
    path_exists, unlink, raise;
  cbv [mbind M_bind mret M_ret].

Ltac in_log :=
  repeat (apply in_or_app; first [right; left; reflexivity | left]).

(** [create_certificate] against [pipeline]: same outcome, same files; the
    renderer is called once when the document was written, never
    otherwise; an exception that leaves is in the log. *)
Lemma create_certificate_run (E : env) (data : attrs) (w : world) :
  let res := create_certificate E data w in
  res.1 = (pipeline E data w).1 /\
  files res.2 = (pipeline E data w).2 /\
  renderer_calls res.2 =
    match open_error E, write_error E with
    | None, None => S (renderer_calls w)
    | _, _ => renderer_calls w
    end /\
  clock_reads res.2 = S (clock_reads w) /\
  (forall e, res.1 = Raise e ->
             In (ERROR, "Error creating certificate: " ++ e) (log res.2)).
Proof.
  unfold pipeline, cleaned, rendered, fs_written, html_of, create_certificate.
  run_effects.
  destruct (open_error E) as [oe|]; simpl.
  { repeat split. intros e [= <-]. in_log. }
  destruct (write_error E) as [we|]; simpl.
  { repeat split. intros e [= <-]. in_log. }
  destruct (pdfkit_config E) as [cfg|];
    (destruct (from_file E _ (tmp_path E) _) as [[pdf|err] fs2]; simpl;
     destruct (bool_decide (is_Some (fs2 !! tmp_path E)));
     destruct (unlink_error E) as [ue|]; simpl;
     repeat split; try discriminate; intros e [= <-]; in_log).
Qed.

(** The outcome of the pipeline does not look at the log. *)
Lemma pipeline_log_irrelevant (E : env) (data : attrs) (w : world)
    (l : level) (msg : string) :
  pipeline E data (logger l msg w).2 = pipeline E data w.
Proof. reflexivity. Qed.

Lemma generate_certificate_run (E : env) (data : attrs) (w : world) :
  data <> ∅ ->
  (generate_certificate E (Object data) w).1 =
  Ret (match (pipeline E data w).1 with
       | Ret pdf => generate_success E data w pdf
       | Raise e => failure_response "certificate" e
       end).
Proof.
  intros Hne. unfold generate_certificate, generate_success. run_effects.
  unfold no_data. rewrite bool_decide_eq_false_2 by exact Hne. simpl.
  match goal with
  | |- context [create_certificate E data ?w1] =>
    pose proof (create_certificate_run E data w1) as (H1 & _ & _ & H4 & _);
    change (pipeline E data w1) with (pipeline E data w) in H1;
    destruct (create_certificate E data w1) as [[pdf|e] w2]
  end; simpl in *; rewrite <- H1; [now rewrite H4 | reflexivity].
Qed.

Lemma generate_certificate_file_run (E : env) (data : attrs) (w : world) :
  data <> ∅ ->
  (generate_certificate_file E (Object data) w).1 =
  Ret (match (pipeline E data w).1 with
       | Ret pdf => file_response E data w pdf
       | Raise e => failure_response "certificate" e
       end).
Proof.
  intros Hne. unfold generate_certificate_file, file_response, download_name.
  run_effects.
  unfold no_data. rewrite bool_decide_eq_false_2 by exact Hne. simpl.
  match goal with
  | |- context [create_certificate E data ?w1] =>
    pose proof (create_certificate_run E data w1) as (H1 & _ & _ & H4 & _);
    change (pipeline E data w1) with (pipeline E data w) in H1;
    destruct (create_certificate E data w1) as [[pdf|e] w2]
  end; simpl in *; rewrite <- H1; [| reflexivity].
  rewrite H4. now destruct (send_file_error E _).
Qed.

(** C5, as the code has it.  Once the document is written to its temporary
    file, the renderer is called once and the cleanup runs whether it
    returned or raised.  If the deletion does not fail, the file is gone
    afterwards and the renderer's result or error is what the pipeline gives
    back.  If the deletion fails on a file that is still there, its error
    replaces the renderer's result or error, is logged as an error of the
    certificate creation, and the file stays. *)
Theorem C5_cleanup_after_render (E : env) (data : attrs) (w : world) :
  open_error E = None ->
  write_error E = None ->
  let res := create_certificate E data w in
  let primary := (rendered E data w).1 in
  let left_by_renderer := (rendered E data w).2 in
  renderer_calls res.2 = S (renderer_calls w) /\
  match unlink_error E with
  | None => res.1 = primary /\ files res.2 !! tmp_path E = None
  | Some e =>
    if bool_decide (is_Some (left_by_renderer !! tmp_path E))
    then res.1 = Raise e /\ is_Some (files res.2 !! tmp_path E) /\
         In (ERROR, "Error creating certificate: " ++ e) (log res.2)
    else res.1 = primary /\ files res.2 !! tmp_path E = None
  end.
Proof.
  intros Ho Hw res primary left_by_renderer.
  destruct (create_certificate_run E data w) as (H1 & H2 & H3 & _ & H5).
  fold res in H1, H2, H3, H5. unfold pipeline, cleaned in H1, H2.
  rewrite Ho, Hw in H1, H2, H3. fold primary left_by_renderer in H1, H2.
  split; [exact H3 |].
  destruct (unlink_error E) as [ue|];
    destruct (bool_decide (is_Some (left_by_renderer !! tmp_path E))) eqn:X;
    simpl in H1, H2; rewrite H2.
  - apply bool_decide_eq_true in X. split; [exact H1 |]. split; [exact X |].
    now apply H5.
  - apply bool_decide_eq_false in X. split; [exact H1 |].
    now apply eq_None_not_Some.
  - split; [exact H1 | apply lookup_delete_eq].
  - apply bool_decide_eq_false in X. split; [exact H1 |].
    now apply eq_None_not_Some.
Qed.

Lemma C5_cleanup_after_render_witness :
  (let E := sample_env pdf_ok None in
   let res := create_certificate E sample_data world0 in
   res.1 = pdf_ok /\ files res.2 !! tmp_path E = None) /\
  (let E := sample_env wkhtmltopdf_failed None in
   let res := create_certificate E sample_data world0 in
   res.1 = wkhtmltopdf_failed /\ files res.2 !! tmp_path E = None).
Proof.
  split.
  - pose proof (C5_cleanup_after_render (sample_env pdf_ok None) sample_data
                  world0 eq_refl eq_refl) as H.
    cbv zeta in H. destruct H as (_ & H1 & H2). cbv zeta. split; [| exact H2].
    etransitivity; [exact H1 | vm_compute; reflexivity].
  - pose proof (C5_cleanup_after_render (sample_env wkhtmltopdf_failed None)
                  sample_data world0 eq_refl eq_refl) as H.
    cbv zeta in H. destruct H as (_ & H1 & H2). cbv zeta. split; [| exact H2].
    etransitivity; [exact H1 | vm_compute; reflexivity].
Defined.

(** C5 as the specification words it fails: the renderer returns the PDF, the
    deletion of the temporary file raises; the pipeline raises the deletion's
    error in place of the PDF, and the file is still there. *)
Lemma C5_counterexample :
  let E := sample_env pdf_ok file_in_use in
  let res := create_certificate E sample_data world0 in
  (rendered E sample_data world0).1 = Ret "%PDF-1.4" /\
  res.1 = Raise "[WinError 32] The process cannot access the file" /\
  (path_exists (tmp_path E) res.2).1 = Ret true.
Proof. cbv zeta. repeat split; vm_compute; reflexivity. Qed.

(** The exit the cleanup does not cover: when writing the document raises,
    the file that [NamedTemporaryFile] created stays, holding the part of the
    document that had been written, and the renderer is not called. *)
Lemma write_failure_leaves_file (E : env) (data : attrs) (w : world) (e : string) :
  open_error E = None ->
  write_error E = Some e ->
  let res := create_certificate E data w in
  res.1 = Raise e /\
  (exists part rest,
     files res.2 !! tmp_path E = Some part /\
     html_of E data w = part ++ rest /\
     String.length part = Nat.min (partial_write E) (String.length (html_of E data w))) /\
  renderer_calls res.2 = renderer_calls w.
Proof.
  intros Ho Hw res.
  destruct (create_certificate_run E data w) as (H1 & H2 & H3 & _).
  fold res in H1, H2, H3. unfold pipeline in H1, H2. rewrite Ho, Hw in H1, H2, H3.
  split; [exact H1 |]. split; [| exact H3].
  destruct (slice_to_prefix (partial_write E) (html_of E data w)) as [rest Hrest].
  exists (PyStr.slice_to (partial_write E) (html_of E data w)), rest.
  split; [| split; [exact Hrest | apply slice_to_length]].
  simpl in H2. rewrite H2. apply lookup_insert_eq.
Qed.

(** ** The request handlers *)

(** C8, as the code has it.  When the renderer raises and the cleanup that
    follows does not, the pipeline raises the renderer's error, message
    unchanged, after one call of the renderer and with no artifact; the
    generate and generate-file handlers answer with status 500, success
    false and an error text that ends with that message. *)
Theorem C8_renderer_failure_reported (E : env) (data : attrs) (w : world)
    (e : string) :
  open_error E = None ->
  write_error E = None ->
  (rendered E data w).1 = Raise e ->
  unlink_error E = None ->
  data <> ∅ ->
  let res := create_certificate E data w in
  let failure := failure_response "certificate" e in
  res.1 = Raise e /\
  renderer_calls res.2 = S (renderer_calls w) /\
  In (ERROR, "Error creating certificate: " ++ e) (log res.2) /\
  (generate_certificate E (Object data) w).1 = Ret failure /\
  (generate_certificate_file E (Object data) w).1 = Ret failure /\
  status_of failure = 500 /\
  field "success" failure = Some (JBool false) /\
  field "error" failure = Some (JStr ("Failed to generate certificate: " ++ e)).
Proof.
  intros Ho Hw Hr Hu Hne res failure.
  assert (Hp : (pipeline E data w).1 = Raise e).
  { unfold pipeline, cleaned. rewrite Ho, Hw, Hu.
    destruct (bool_decide _); exact Hr. }
  destruct (create_certificate_run E data w) as (H1 & _ & H3 & _ & H5).
  fold res in H1, H3, H5. rewrite Ho, Hw in H3. rewrite Hp in H1.
  split; [exact H1 |]. split; [exact H3 |]. split; [now apply H5 |].
  rewrite generate_certificate_run, generate_certificate_file_run by exact Hne.
  rewrite Hp. repeat split.
Qed.

Lemma sample_data_nonempty : sample_data <> ∅.
Proof. intros H. apply (f_equal (lookup "device_type")) in H. discriminate H. Qed.

Lemma C8_renderer_failure_reported_witness :
  let E := sample_env wkhtmltopdf_failed None in
  (create_certificate E sample_data world0).1 = wkhtmltopdf_failed /\
  (generate_certificate E (Object sample_data) world0).1 =
  Ret (Json 500
         [("success", JBool false);
          ("error", JStr "Failed to generate certificate: wkhtmltopdf reported an error: Exit with code 1")]).
Proof.
  pose proof (C8_renderer_failure_reported (sample_env wkhtmltopdf_failed None)
                sample_data world0 "wkhtmltopdf reported an error: Exit with code 1"
                eq_refl eq_refl eq_refl eq_refl sample_data_nonempty) as H.
  cbv zeta in H. destruct H as (H1 & _ & _ & H4 & _). split; [exact H1 | exact H4].
Defined.

(** C8 as the specification words it fails: the renderer raises and the
    deletion of the temporary file raises too; what leaves the pipeline and
    what the response carries is the deletion's message, the renderer's
    diagnostic is in neither. *)
Lemma C8_counterexample :
  let E := sample_env wkhtmltopdf_failed file_in_use in
  (rendered E sample_data world0).1 = wkhtmltopdf_failed /\
  (create_certificate E sample_data world0).1
  = Raise "[WinError 32] The process cannot access the file" /\
  (generate_certificate E (Object sample_data) world0).1
  = Ret (Json 500
           [("success", JBool false);
            ("error", JStr "Failed to generate certificate: [WinError 32] The process cannot access the file")]).
Proof. cbv zeta. repeat split; vm_compute; reflexivity. Qed.

(** C6, as the code has it.  On a non-empty attribute set for which the
    pipeline returns a PDF, generate answers success with that PDF in
    base64 and the file name "certificate_" + certificate_id + ".pdf" when
    the key is present (then the identifier of the document), and
    "certificate_unknown.pdf" when it is absent. *)
Theorem C6_filename_from_certificate_id (E : env) (data : attrs) (w : world)
    (pdf : string) :
  data <> ∅ ->
  (create_certificate E data w).1 = Ret pdf ->
  exists resp,
    (generate_certificate E (Object data) w).1 = Ret resp /\
    status_of resp = 200 /\
    field "success" resp = Some (JBool true) /\
    field "pdf_base64" resp = Some (JStr (Base64.b64encode pdf)) /\
    field "filename" resp =
      Some (JStr ("certificate_"
                  ++ default "unknown" (data !! "certificate_id") ++ ".pdf")) /\
    cert_id (html_locals (time_at E (clock_reads w)) (uuid_at E (uuid_reads w)) data)
    = default (synth_cert_id (uuid_at E (uuid_reads w))) (data !! "certificate_id").
Proof.
  intros Hne Hpdf.
  destruct (create_certificate_run E data w) as (H1 & _).
  rewrite Hpdf in H1.
  exists (generate_success E data w pdf). split.
  - rewrite generate_certificate_run by exact Hne. now rewrite <- H1.
  - repeat split.
Qed.

Lemma C6_filename_from_certificate_id_witness :
  exists resp,
    (generate_certificate (sample_env pdf_ok None) (Object sample_data) world0).1
    = Ret resp /\
    field "filename" resp = Some (JStr "certificate_CERT-TEST-1.pdf").
Proof.
  assert (Hpdf : (create_certificate (sample_env pdf_ok None) sample_data world0).1
                 = Ret "%PDF-1.4") by (vm_compute; reflexivity).
  destruct (C6_filename_from_certificate_id (sample_env pdf_ok None) sample_data
              world0 "%PDF-1.4" sample_data_nonempty Hpdf)
    as (resp & H1 & _ & _ & _ & H5 & _).
  exists resp. split; [exact H1 |].
  etransitivity; [exact H5 | vm_compute; reflexivity].
Defined.

(** C6 as the specification words it fails: with no "certificate_id" the
    document carries the synthesized identifier and the file name says
    "unknown"; and the empty attribute set, which the pipeline renders, is
    answered with the 400 response. *)
Lemma C6_counterexample :
  let E := sample_env pdf_ok None in
  let data : attrs := {[ "final_status" := "PASSED" ]} in
  cert_id (html_locals sample_time sample_uuid data) = "CERT-DEADBEEF" /\
  (create_certificate E data world0).1 = Ret "%PDF-1.4" /\
  (exists resp, (generate_certificate E (Object data) world0).1 = Ret resp /\
                field "filename" resp = Some (JStr "certificate_unknown.pdf")) /\
  (create_certificate E ∅ world0).1 = Ret "%PDF-1.4" /\
  (generate_certificate E (Object ∅) world0).1 = Ret no_data_response.
Proof.
  cbv zeta. split; [vm_compute; reflexivity |].
  split; [vm_compute; reflexivity |]. split.
  - eexists. split; vm_compute; reflexivity.
  - split; vm_compute; reflexivity.
Qed.

(** C7, as the code has it.  With no attribute set (JSON null) or an empty
    one, generate, generate-file and preview answer with the 400 response
    {"error": "No data provided"} and touch nothing; the test handler
    answers normally, status 200 with a parameter count of 0 and no error
    field. *)
Theorem C7_missing_attribute_set (E : env) (w : world) :
  Forall (fun r =>
            generate_certificate E r w = (Ret no_data_response, w) /\
            generate_certificate_file E r w = (Ret no_data_response, w) /\
            preview_certificate E r w = (Ret no_data_response, w) /\
            exists resp,
              (test_endpoint E r w).1 = Ret resp /\
              status_of resp = 200 /\
              field "received_params" resp = Some (JInt 0) /\
              field "error" resp = None)
         [Null; Object ∅] /\
  is_error_response no_data_response /\
  status_of no_data_response = 400 /\
  field "error" no_data_response = Some (JStr "No data provided").
Proof.
  split.
  - repeat constructor; eexists; repeat split.
  - repeat split; [simpl; lia | eexists; reflexivity].
Qed.

(** C7 as the specification words it fails: the test handler answers a
    missing attribute set with a normal response. *)
Lemma C7_counterexample :
  exists resp,
    (test_endpoint (sample_env pdf_ok None) Null world0).1 = Ret resp /\
    status_of resp = 200 /\
    field "received_params" resp = Some (JInt 0) /\
    ~ is_error_response resp.
Proof.
  eexists. split; [vm_compute; reflexivity |].
  split; [reflexivity |]. split; [reflexivity |].
  intros [H _]. simpl in H. lia.
Qed.

(** * Further properties of the code *)

(** ** Start-up *)

Example possible_paths_user :
  nth 2 (possible_paths "ana") "" =
  "C:\Users\ana\AppData\Local\Programs\wkhtmltopdf\bin\wkhtmltopdf.exe".
Proof. vm_compute. reflexivity. Qed.

Lemma first_existing_run (paths : list string) (w : world) :
  (first_existing paths w).2 = w /\
  match (first_existing paths w).1 with
  | Ret (Some p) =>
    exists i, paths !! i = Some p /\ is_Some (files w !! p) /\
              forall j q, j < i -> paths !! j = Some q -> files w !! q = None
  | Ret None => forall q, In q paths -> files w !! q = None
  | Raise _ => False
  end.
Proof.
  induction paths as [|p rest IH]; simpl.
  - split; [reflexivity | intros q []].
  - unfold mbind, M_bind, path_exists. simpl.
    destruct (bool_decide (is_Some (files w !! p))) eqn:X.
    + apply bool_decide_eq_true in X. split; [reflexivity |]. simpl.
      exists 0. split; [reflexivity |]. split; [exact X |]. intros j q Hj. lia.
    + apply bool_decide_eq_false in X. apply eq_None_not_Some in X.
      destruct IH as [IH1 IH2]. split; [exact IH1 |].
      destruct (first_existing rest w) as [[[found|]|e] w']; simpl in *.
      * destruct IH2 as (i & Hi & Hex & Hbefore). exists (S i).
        split; [exact Hi |]. split; [exact Hex |].
        intros [|j] q Hj Hq; simpl in Hq.
        -- now injection Hq as <-.
        -- apply (Hbefore j); [lia | exact Hq].
      * intros q [<- | Hq]; [exact X | now apply IH2].
      * exact IH2.
Qed.


Example setup_outside_windows :
  setup_wkhtmltopdf_config configuration_ok "Linux" None windows_world
  = (Ret None, windows_world).
Proof. reflexivity. Qed.

Example setup_on_windows :
  (setup_wkhtmltopdf_config configuration_ok "Windows" (Some "ana") windows_world).1
  = Ret (Some "C:\wkhtmltopdf\bin\wkhtmltopdf.exe").
Proof. vm_compute. reflexivity. Qed.

Example setup_on_bare_windows :
  (setup_wkhtmltopdf_config configuration_ok "Windows" (Some "ana") world0).1
  = Ret None.
Proof. vm_compute. reflexivity. Qed.

Example setup_refused :
  (setup_wkhtmltopdf_config configuration_refused "Windows" (Some "ana") windows_world).1
  = Raise "No wkhtmltopdf executable found: C:\wkhtmltopdf\bin\wkhtmltopdf.exe".
Proof. vm_compute. reflexivity. Qed.

(** The start-up search.  Outside Windows there is no configuration and
    nothing is logged.  On Windows, when none of the four installation
    paths exists there is no configuration and a warning is logged;
    otherwise [pdfkit.configuration] is applied to the first path that
    exists, and to no other: its result is the configuration, logged, and
    its exception leaves the function.  The file system is never changed. *)
Theorem setup_finds_first_installed
    (configuration : string -> gmap string string -> outcome string)
    (system : string) (username_var : option string) (w : world) :
  let res := setup_wkhtmltopdf_config configuration system username_var w in
  let paths := possible_paths (default "" username_var) in
  files res.2 = files w /\
  if String.eqb system "Windows" then
    (exists i p,
       paths !! i = Some p /\ is_Some (files w !! p) /\
       (forall j q, j < i -> paths !! j = Some q -> files w !! q = None) /\
       match configuration p (files w) with
       | Ret config =>
         res.1 = Ret (Some config) /\
         log res.2 = (log w ++ [(INFO, ("Found wkhtmltopdf at: " ++ p)%string)])%list
       | Raise e => res.1 = Raise e /\ log res.2 = log w
       end)
    \/
    ((forall q, In q paths -> files w !! q = None) /\
     res.1 = Ret None /\
     log res.2 = (log w ++ [(WARNING, "wkhtmltopdf not found in common paths, using system PATH")])%list)
  else res = (Ret None, w).
Proof.
  intros res paths. subst res. unfold setup_wkhtmltopdf_config.
  destruct (String.eqb_spec system "Windows") as [-> | Hne]; [| split; reflexivity].
  unfold mbind, M_bind, pdfkit_configuration. fold paths.
  destruct (first_existing_run paths w) as [Hw Hres].
  destruct (first_existing paths w) as [[[p|]|e] w']; simpl in *; subst w'.
  - destruct Hres as (i & Hi & Hex & Hbefore).
    destruct (configuration p (files w)) as [config | e] eqn:Hc; simpl.
    + split; [reflexivity |]. left. exists i, p. rewrite Hc. repeat split; assumption.
    + split; [reflexivity |]. left. exists i, p. rewrite Hc. repeat split; assumption.
  - split; [reflexivity |]. right. repeat split. exact Hres.
  - destruct Hres.
Qed.

Section HandlerFacts.
Variable E : env.

Lemma no_data_object (d : attrs) : no_data (Some d) = bool_decide (d = ∅).
Proof. reflexivity. Qed.

Lemma preview_certificate_run (data : attrs) (w : world) :
  data <> ∅ ->
  preview_certificate E (Object data) w =
  (Ret (Json 200
          [("success", JBool true);
           ("html_content", JStr (html_of E data w));
           ("message", JStr "Professional certificate preview generated")]),
   {| files := files w; log := log w; clock_reads := S (clock_reads w);
      uuid_reads := S (uuid_reads w); renderer_calls := renderer_calls w |}).
Proof.
  intros Hne. unfold preview_certificate. run_effects.
  unfold no_data. rewrite bool_decide_eq_false_2 by exact Hne. reflexivity.
Qed.

(** No exception leaves the three handlers that have a [try] block: for
    every request, refused JSON included, each returns a response, and its
    status is 200, 400 or 500. *)
Theorem handlers_never_raise (r : request) (w : world) :
  Forall (fun handler : request -> M response =>
            exists resp, (handler r w).1 = Ret resp /\
                         In (status_of resp) [200; 400; 500])
         [generate_certificate E; generate_certificate_file E; preview_certificate E].
Proof.
  destruct r as [e | | data].
  - repeat constructor; eexists; (split; [reflexivity | simpl; tauto]).
  - repeat constructor; eexists; (split; [reflexivity | simpl; tauto]).
  - destruct (decide (data = ∅)) as [-> | Hne].
    + repeat constructor; eexists; (split; [reflexivity | simpl; tauto]).
    + repeat constructor.
      * rewrite generate_certificate_run by exact Hne.
        destruct (pipeline E data w).1; eexists; (split; [reflexivity | simpl; tauto]).
      * rewrite generate_certificate_file_run by exact Hne. unfold file_response.
        destruct (pipeline E data w).1; [destruct (send_file_error E _) |];
          eexists; (split; [reflexivity | simpl; tauto]).
      * rewrite preview_certificate_run by exact Hne.
        eexists; (split; [reflexivity | simpl; tauto]).
Qed.

End HandlerFacts.

(** ** More on the composer *)

#[local] Transparent create_certificate_html.

Lemma fill_ext (L L' : locals) (data data' : attrs) (t : list part) :
  Forall (fun h => slot_value L data h = slot_value L' data' h) (holes t) ->
  fill L data t = fill L' data' t.
Proof.
  induction t as [|[s | h] t IH]; simpl; intros H.
  - reflexivity.
  - rewrite !fill_cons. simpl. now rewrite IH.
  - inversion H as [|? ? Hh Ht]; subst. rewrite !fill_cons. simpl.
    now rewrite Hh, IH.
Qed.

Lemma read_keys_of_hole (h : slot) (k : string) :
  In h (holes template) -> In k (slot_keys h) -> In k read_keys.
Proof.
  intros Hh Hk. unfold read_keys. apply in_or_app. right.
  apply in_flat_map. now exists h.
Qed.

(** The 38 attribute names the composer reads. *)
Lemma read_keys_listed :
  remove_dups read_keys =
  ["issue_date"; "certificate_id"; "final_status"; "device_type"; "manufacturer";
   "model"; "serial_number"; "asset_tag"; "capacity"; "interface";
   "firmware_version"; "sanitization_method"; "standard_compliance";
   "number_of_passes"; "algorithm"; "start_time"; "duration"; "software_used";
   "software_version"; "pre_wipe_verification"; "post_wipe_verification";
   "verification_method"; "sectors_processed"; "data_remnants";
   "os_installation_status"; "os_version"; "boot_test_result"; "customer_name";
   "work_order"; "location"; "witness_name"; "temperature"; "humidity"; "notes";
   "technician_name"; "technician_date"; "supervisor_name"; "supervisor_date"].
Proof. vm_compute. reflexivity. Qed.

(** The composer looks at no attribute but the 38 of [read_keys]: two
    attribute sets that agree on them give the same document. *)
Theorem composer_reads_only_its_keys (now : Clock.datetime) (uuid : N)
    (data data' : attrs) :
  (forall k, In k read_keys -> data !! k = data' !! k) ->
  create_certificate_html now uuid data = create_certificate_html now uuid data'.
Proof.
  intros H. unfold create_certificate_html.
  assert (HL : html_locals now uuid data = html_locals now uuid data').
  { unfold html_locals, get.
    rewrite (H "issue_date"), (H "certificate_id"), (H "final_status");
      [reflexivity | | |]; unfold read_keys; simpl; tauto. }
  rewrite HL. apply fill_ext, Forall_forall. intros h Hh.
  apply list_elem_of_In in Hh.
  destruct h; simpl; try reflexivity; unfold get;
    (rewrite (H _ (read_keys_of_hole _ _ Hh (or_introl eq_refl))); reflexivity).
Qed.

Lemma composer_reads_only_its_keys_witness :
  create_certificate_html sample_time sample_uuid
    (<["verification_date" := "2024-03-15"]> sample_data)
  = create_certificate_html sample_time sample_uuid sample_data.
Proof.
  apply composer_reads_only_its_keys. intros k Hk.
  apply lookup_insert_ne. intros <-. revert Hk.
  rewrite <- list_elem_of_In, <- elem_of_remove_dups, read_keys_listed.
  rewrite list_elem_of_In. simpl. intuition discriminate.
Defined.

(** A supplied value is inserted as it is, whatever its characters: for
    each of the 32 attributes of [na_fields], the document is the text
    before the hole, the value, and the text after it. *)
Theorem supplied_value_inserted_verbatim (now : Clock.datetime) (uuid : N)
    (data : attrs) (k v : string) :
  In k na_fields ->
  data !! k = Some v ->
  let L := html_locals now uuid data in
  exists l r, template = (l ++ Hole (Field k) :: r)%list /\
              create_certificate_html now uuid data
              = fill L data l ++ v ++ fill L data r.
Proof.
  intros Hk Hv L. destruct (field_keys_hole k template Hk) as (l & r & Ht).
  exists l, r. split; [exact Ht |]. unfold create_certificate_html. fold L.
  rewrite Ht at 1. rewrite fill_at_hole. simpl. unfold get. now rewrite Hv.
Qed.

Lemma supplied_value_inserted_verbatim_witness :
  let data : attrs := {[ "notes" := "</div><script>alert(1)</script>" ]} in
  let L := html_locals sample_time sample_uuid data in
  exists l r, template = (l ++ Hole (Field "notes") :: r)%list /\
              create_certificate_html sample_time sample_uuid data
              = fill L data l ++ "</div><script>alert(1)</script>" ++ fill L data r.
Proof.
  apply supplied_value_inserted_verbatim; [| reflexivity].
  rewrite na_fields_listed. simpl. tauto.
Defined.

Lemma generated_split :
  exists l r, template = (l ++ Hole FooterGenerated :: r)%list /\
              Forall (fun h => h <> FooterGenerated) (holes l) /\
              Forall (fun h => h <> FooterGenerated) (holes r).
Proof.
  exists (firstn 85 template), (skipn 86 template).
  split; [vm_compute; reflexivity |].
  split; apply (bool_decide_unpack _); vm_compute; exact I.
Qed.

(** With "certificate_id" and "issue_date" supplied, neither the UUID nor
    the clock reaches the document except through the footer's "Generated:"
    field: the document is one fixed text around the formatted clock
    reading. *)
Theorem document_fixed_around_timestamp (data : attrs) (id date : string) :
  data !! "certificate_id" = Some id ->
  data !! "issue_date" = Some date ->
  exists pre post, forall now uuid,
    create_certificate_html now uuid data
    = pre ++ Clock.strftime_display now ++ post.
Proof.
  intros Hid Hdate.
  destruct generated_split as (l & r & Ht & Hl & Hr).
  pose (L0 := html_locals sample_time sample_uuid data).
  exists (fill L0 data l), (fill L0 data r). intros now uuid.
  unfold create_certificate_html. rewrite Ht, fill_at_hole.
  assert (Hext : forall h, h <> FooterGenerated ->
            slot_value (html_locals now uuid data) data h = slot_value L0 data h).
  { intros h Hh. subst L0. destruct h; simpl; unfold get;
      rewrite ?Hid, ?Hdate; try reflexivity. now destruct Hh. }
  rewrite (fill_ext _ L0 data data l), (fill_ext _ L0 data data r).
  - reflexivity.
  - eapply Forall_impl; [exact Hr | exact Hext].
  - eapply Forall_impl; [exact Hl | exact Hext].
Qed.

Lemma document_fixed_around_timestamp_witness :
  exists pre post, forall now uuid,
    create_certificate_html now uuid
      {[ "certificate_id" := "CERT-TEST-1"; "issue_date" := "2024-03-15" ]}
    = pre ++ Clock.strftime_display now ++ post.
Proof.
  exact (document_fixed_around_timestamp
           {[ "certificate_id" := "CERT-TEST-1"; "issue_date" := "2024-03-15" ]}
           "CERT-TEST-1" "2024-03-15" eq_refl eq_refl).
Defined.

(** ** Dates and status in the document *)

Lemma str_length_app (a b : string) :
  String.length (a ++ b) = String.length a + String.length b.
Proof. induction a as [|c a IH]; [reflexivity | rewrite app_cons; simpl; now rewrite IH]. Qed.

Lemma slice_to_app (a b : string) :
  PyStr.slice_to (String.length a) (a ++ b) = a.
Proof. induction a as [|c a IH]; [now destruct b | rewrite app_cons; simpl; now rewrite IH]. Qed.

Lemma zfill_length (w bound n : nat) :
  forallb (fun k => Nat.eqb (String.length (Clock.zfill w k)) w) (seq 0 bound) = true ->
  n < bound -> String.length (Clock.zfill w n) = w.
Proof.
  intros H Hn. rewrite forallb_forall in H. apply Nat.eqb_eq, H, in_seq. lia.
Qed.

Lemma zfill2_length (n : nat) : n < 100 -> String.length (Clock.zfill 2 n) = 2.
Proof. apply zfill_length. vm_compute. reflexivity. Qed.

Lemma zfill4_length (n : nat) : n < 10 * 1000 -> String.length (Clock.zfill 4 n) = 4.
Proof. apply zfill_length. vm_compute. reflexivity. Qed.

(** When neither "issue_date" nor the signature's own date is supplied,
    the signature date is the calendar date of the clock reading,
    YYYY-MM-DD, ten characters. *)
Theorem default_signature_date_is_today (now : Clock.datetime) (uuid : N)
    (data : attrs) (who : signer) :
  data !! "issue_date" = None ->
  data !! date_key who = None ->
  1000 <= Clock.year now < 10 * 1000 ->
  1 <= Clock.month now <= 12 ->
  1 <= Clock.day now <= 31 ->
  let date := slot_value (html_locals now uuid data) data (date_slot who) in
  date = Clock.zfill 4 (Clock.year now) ++ "-" ++ Clock.zfill 2 (Clock.month now)
         ++ "-" ++ Clock.zfill 2 (Clock.day now) /\
  String.length date = 10.
Proof.
  intros Hissue Hdate Hy Hm Hd date.
  set (ymd := Clock.zfill 4 (Clock.year now) ++ "-" ++ Clock.zfill 2 (Clock.month now)
              ++ "-" ++ Clock.zfill 2 (Clock.day now)).
  assert (Hlen : String.length ymd = 10).
  { subst ymd. rewrite !str_length_app, zfill4_length, !zfill2_length by lia.
    reflexivity. }
  assert (Hsplit : Clock.strftime_display now =
                   ymd ++ " " ++ Clock.zfill 2 (Clock.hour now) ++ ":"
                   ++ Clock.zfill 2 (Clock.minute now) ++ ":"
                   ++ Clock.zfill 2 (Clock.second now)).
  { subst ymd. unfold Clock.strftime_display. now rewrite !app_assoc'. }
  assert (Heq : date = ymd).
  { subst date.
    transitivity (PyStr.slice_to 10 (Clock.strftime_display now)).
    - destruct who; simpl in Hdate |- *; unfold get; now rewrite Hdate, Hissue.
    - rewrite Hsplit, <- Hlen. apply slice_to_app. }
  split; [exact Heq | now rewrite Heq].
Qed.

Lemma default_signature_date_is_today_witness :
  slot_value (html_locals sample_time sample_uuid sample_data) sample_data
             SigSupervisorDate = "2024-03-15".
Proof.
  destruct (default_signature_date_is_today sample_time sample_uuid sample_data
              Supervisor eq_refl eq_refl) as [H _];
    [simpl; lia | simpl; lia | simpl; lia |].
  etransitivity; [exact H | vm_compute; reflexivity].
Defined.

(** The classification does not see letter case: two status texts that are
    equal after lower-casing get the same style. *)
Theorem badge_style_ignores_case (s s' : string) :
  PyStr.lower s = PyStr.lower s' ->
  get_status_badge_style (Some s) = get_status_badge_style (Some s').
Proof.
  intros H.
  assert (He : forall x, x = "" <-> PyStr.lower x = "").
  { intros [|c x]; simpl; split; congruence. }
  destruct (badge_style_cases (Some s)) as [[E1 H1] | [E1 H1]];
    destruct (badge_style_cases (Some s')) as [[E2 H2] | [E2 H2]];
    simpl in *; rewrite H1, H2.
  - reflexivity.
  - apply He in E1. rewrite H in E1. now apply He in E1.
  - apply He in E2. rewrite <- H in E2. now apply He in E2.
  - now rewrite H.
Qed.

Lemma badge_style_ignores_case_witness :
  get_status_badge_style (Some "Passed") = get_status_badge_style (Some "PASSED").
Proof. apply badge_style_ignores_case. reflexivity. Defined.




(** ** The synthesized identifier and the UUID *)

Lemma upper_app (a b : string) : PyStr.upper (a ++ b) = PyStr.upper a ++ PyStr.upper b.
Proof. induction a as [|c a IH]; [reflexivity | rewrite app_cons; simpl; now rewrite IH]. Qed.

Lemma app_inj_length (a b s t : string) :
  String.length a = String.length b -> a ++ s = b ++ t -> a = b /\ s = t.
Proof.
  revert b. induction a as [|c a IH]; intros [|d b] Hlen H; try discriminate.
  - now split.
  - rewrite !app_cons in H. injection H as -> H. injection Hlen as Hlen.
    destruct (IH b Hlen H) as [-> ->]. now split.
Qed.

Lemma hex_go_acc (w : nat) (n : N) (acc : string) :
  Uuid.hex_go w n acc = Uuid.hex_go w n "" ++ acc.
Proof.
  revert n acc. induction w as [|w IH]; intros n acc; simpl; [reflexivity |].
  rewrite (IH _ (String _ acc)), (IH _ (String _ "")). now rewrite app_assoc'.
Qed.

Lemma hex_go_split (a b : nat) (n : N) :
  Uuid.hex_go (a + b) n "" =
  Uuid.hex_go a (n / 16 ^ N.of_nat b)%N "" ++ Uuid.hex_go b n "".
Proof.
  revert n. induction b as [|b IH]; intros n.
  - rewrite Nat.add_0_r. simpl. now rewrite N.div_1_r, app_empty_r.
  - rewrite Nat.add_succ_r. simpl Uuid.hex_go.
    rewrite (hex_go_acc (a + b)), (hex_go_acc b), IH, app_assoc'.
    rewrite Nat2N.inj_succ, N.pow_succ_r', N.Div0.div_div. reflexivity.
Qed.

Lemma upper_hex_digit_inj (d d' : N) :
  (d < 16)%N -> (d' < 16)%N ->
  PyStr.upper_char (Uuid.hex_digit d) = PyStr.upper_char (Uuid.hex_digit d') -> d = d'.
Proof.
  intros H H'.
  assert (D : In d (map N.of_nat (seq 0 16))).
  { replace d with (N.of_nat (N.to_nat d)) by apply N2Nat.id. apply in_map, in_seq. lia. }
  assert (D' : In d' (map N.of_nat (seq 0 16))).
  { replace d' with (N.of_nat (N.to_nat d')) by apply N2Nat.id. apply in_map, in_seq. lia. }
  simpl in D, D'.
  repeat (destruct D as [<- | D]; [repeat (destruct D' as [<- | D']; [intros E; first [reflexivity | discriminate E] |]); destruct D' |]).
  destruct D.
Qed.

(** The upper-cased [w] low hexadecimal digits of [n] determine [n] modulo
    [16 ^ w], and nothing more. *)
Lemma upper_hex_go_eq (w : nat) (n m : N) :
  PyStr.upper (Uuid.hex_go w n "") = PyStr.upper (Uuid.hex_go w m "") <->
  (n mod 16 ^ N.of_nat w = m mod 16 ^ N.of_nat w)%N.
Proof.
  revert n m. induction w as [|w IH]; intros n m.
  - simpl. rewrite !N.mod_1_r. tauto.
  - simpl Uuid.hex_go. rewrite (hex_go_acc w (n / 16)), (hex_go_acc w (m / 16)).
    rewrite !upper_app. simpl PyStr.upper.
    rewrite Nat2N.inj_succ, N.pow_succ_r'.
    rewrite !N.Div0.mod_mul_r.
    assert (Hn : (n mod 16 < 16)%N) by (apply N.mod_lt; discriminate).
    assert (Hm : (m mod 16 < 16)%N) by (apply N.mod_lt; discriminate).
    assert (P : (0 < 16 ^ N.of_nat w)%N) by (apply N.neq_0_lt_0, N.pow_nonzero; discriminate).
    set (hn := ((n / 16) mod 16 ^ N.of_nat w)%N).
    set (hm := ((m / 16) mod 16 ^ N.of_nat w)%N).
    split.
    + intros H. apply app_inj_length in H.
      * destruct H as [H1 H2]. apply IH in H1. injection H2 as H2.
        apply upper_hex_digit_inj in H2; [| exact Hn | exact Hm].
        subst hn hm. now rewrite H1, H2.
      * now rewrite !upper_length, !hex_go_length.
    + intros H.
      assert (H12 : (n mod 16)%N = (m mod 16)%N /\ hn = hm) by (clearbody hn hm; revert H Hn Hm;
            generalize (n mod 16)%N, (m mod 16)%N; intros; lia).
      destruct H12 as [H2 H1]. apply IH in H1. now rewrite H1, H2.
Qed.

(** The synthesized identifier keeps the first 32 bits of the UUID and
    nothing else: two UUIDs give the same identifier exactly when those bits
    agree. *)
Theorem synth_cert_id_keeps_32_bits (u u' : N) :
  synth_cert_id u = synth_cert_id u' <-> uuid_head u = uuid_head u'.
Proof.
  unfold synth_cert_id, uuid_head, Uuid.hex.
  change 32 with (8 + 24) at 1 2. rewrite !hex_go_split.
  assert (L : forall x y, PyStr.slice_to 8 (Uuid.hex_go 8 x "" ++ y) = Uuid.hex_go 8 x "").
  { intros x y. rewrite <- (slice_to_app (Uuid.hex_go 8 x "") y) at 2.
    now rewrite hex_go_length. }
  rewrite !L.
  change (16 ^ N.of_nat 24)%N with (2 ^ 96)%N.
  rewrite <- (upper_hex_go_eq 8). change (16 ^ N.of_nat 8)%N with (2 ^ 32)%N.
  split; [| intros ->; reflexivity].
  intros H. now apply app_inj_length in H.
Qed.

Lemma synth_cert_id_keeps_32_bits_witness :
  synth_cert_id 0xdeadbeef000000000000000000000000 = synth_cert_id sample_uuid.
Proof. apply synth_cert_id_keeps_32_bits. vm_compute. reflexivity. Defined.

(** ** More on the render pipeline *)

#[local] Opaque create_certificate_html.

(** If the renderer leaves the other files alone, so does the pipeline:
    after [create_certificate], on every exit, each path other than the
    temporary one holds what it held before. *)
Theorem pipeline_touches_only_temp_file (E : env) (data : attrs) (w : world) :
  (forall cfg fs q, q <> tmp_path E ->
                    (from_file E cfg (tmp_path E) fs).2 !! q = fs !! q) ->
  forall q, q <> tmp_path E ->
            files (create_certificate E data w).2 !! q = files w !! q.
Proof.
  intros Hr q Hq.
  destruct (create_certificate_run E data w) as (_ & H2 & _). rewrite H2.
  unfold pipeline, cleaned, rendered, fs_written.
  destruct (open_error E); [reflexivity |].
  destruct (write_error E); simpl; [now rewrite !lookup_insert_ne |].
  assert (Hfs : (from_file E (pdfkit_config E) (tmp_path E)
                   (<[tmp_path E:=html_of E data w]> (<[tmp_path E:=""]> (files w)))).2
                !! q = files w !! q).
  { rewrite Hr by exact Hq. now rewrite !lookup_insert_ne. }
  destruct (bool_decide _); [| exact Hfs].
  destruct (unlink_error E); simpl; [exact Hfs |].
  now rewrite lookup_delete_ne.
Qed.

Lemma pipeline_touches_only_temp_file_witness :
  files (create_certificate (sample_env wkhtmltopdf_failed file_in_use) sample_data
           (set_files (insert "/srv/keep.txt" "kept") world0)).2 !! "/srv/keep.txt"
  = Some "kept".
Proof.
  rewrite (pipeline_touches_only_temp_file
             (sample_env wkhtmltopdf_failed file_in_use) sample_data
             (set_files (insert "/srv/keep.txt" "kept") world0)
             (fun cfg fs q' _ => eq_refl) "/srv/keep.txt");
    [reflexivity | discriminate].
Defined.

(** When the temporary file cannot be created, [create_certificate] raises
    that error after logging it, the file system is as before and the
    renderer is not called; generate answers with the 500 response that
    carries the message. *)
Theorem tempfile_creation_failure (E : env) (data : attrs) (w : world) (e : string) :
  open_error E = Some e ->
  data <> ∅ ->
  let res := create_certificate E data w in
  res.1 = Raise e /\ files res.2 = files w /\
  renderer_calls res.2 = renderer_calls w /\
  In (ERROR, "Error creating certificate: " ++ e) (log res.2) /\
  (generate_certificate E (Object data) w).1 = Ret (failure_response "certificate" e).
Proof.
  intros Ho Hne res.
  destruct (create_certificate_run E data w) as (H1 & H2 & H3 & _ & H5).
  fold res in H1, H2, H3, H5. unfold pipeline in H1, H2. rewrite Ho in H1, H2, H3.
  split; [exact H1 |]. split; [exact H2 |]. split; [exact H3 |].
  split; [now apply H5 |].
  rewrite generate_certificate_run by exact Hne. unfold pipeline. now rewrite Ho.
Qed.

Lemma tempfile_creation_failure_witness :
  let E := failing_tempfile_env (Some "[Errno 28] No space left on device") None in
  (create_certificate E sample_data world0).1
  = Raise "[Errno 28] No space left on device" /\
  files (create_certificate E sample_data world0).2 = ∅.
Proof.
  destruct (tempfile_creation_failure
              (failing_tempfile_env (Some "[Errno 28] No space left on device") None)
              sample_data world0 _ eq_refl sample_data_nonempty)
    as (H1 & H2 & _).
  split; [exact H1 | exact H2].
Defined.

Lemma write_failure_leaves_file_witness :
  let E := failing_tempfile_env None (Some "[Errno 28] No space left on device") in
  (create_certificate E sample_data world0).1
  = Raise "[Errno 28] No space left on device" /\
  exists part rest,
    files (create_certificate E sample_data world0).2 !! "/tmp/tmpk3v9x2.html"
    = Some part /\
    html_of E sample_data world0 = part ++ rest /\
    renderer_calls (create_certificate E sample_data world0).2 = 0.
Proof.
  destruct (write_failure_leaves_file
              (failing_tempfile_env None (Some "[Errno 28] No space left on device"))
              sample_data world0 _ eq_refl eq_refl)
    as (H1 & (part & rest & H2 & H3 & _) & H4).
  split; [exact H1 |]. exists part, rest.
  split; [exact H2 |]. split; [exact H3 | exact H4].
Defined.

(** The renderer is given the document that preview returns.  When the
    temporary file is written and deleted without error and the renderer's
    answer is a function [f] of the content of its input file, the pipeline
    returns [f] of the very text preview answers with for the same attribute
    set, clock and UUID, and the file system ends as it began, without the
    temporary file. *)
Theorem renderer_reads_the_preview_document (E : env) (data : attrs) (w : world)
    (f : option string -> outcome string) :
  open_error E = None ->
  write_error E = None ->
  unlink_error E = None ->
  (forall cfg p fs, from_file E cfg p fs = (f (fs !! p), fs)) ->
  data <> ∅ ->
  exists html resp,
    (preview_certificate E (Object data) w).1 = Ret resp /\
    field "html_content" resp = Some (JStr html) /\
    (create_certificate E data w).1 = f (Some html) /\
    files (create_certificate E data w).2 = delete (tmp_path E) (files w).
Proof.
  intros Ho Hw Hu Hf Hne.
  exists (html_of E data w). eexists.
  split; [now rewrite preview_certificate_run |]. split; [reflexivity |].
  destruct (create_certificate_run E data w) as (H1 & H2 & _).
  rewrite H1, H2. unfold pipeline, cleaned, rendered, fs_written.
  rewrite Ho, Hw, Hu, Hf. simpl. rewrite lookup_insert_eq.
  rewrite bool_decide_eq_true_2 by (eexists; reflexivity). simpl.
  split; [reflexivity |].
  apply map_eq. intros q. destruct (decide (q = tmp_path E)) as [-> | Hq].
  - now rewrite !lookup_delete_eq.
  - now rewrite !lookup_delete_ne, !lookup_insert_ne.
Qed.

Lemma renderer_reads_the_preview_document_witness :
  exists html resp,
    (preview_certificate echo_env (Object sample_data) world0).1 = Ret resp /\
    field "html_content" resp = Some (JStr html) /\
    (create_certificate echo_env sample_data world0).1 = Ret html.
Proof.
  destruct (renderer_reads_the_preview_document echo_env sample_data world0
              (fun o => match o with
                        | Some text => Ret text
                        | None => Raise "No such file"
                        end)
              eq_refl eq_refl eq_refl (fun _ _ _ => eq_refl) sample_data_nonempty)
    as (html & resp & H1 & H2 & H3 & _).
  exists html, resp. split; [exact H1 |]. split; [exact H2 | exact H3].
Defined.
(** ** Base64 *)

Ltac Zify.zify_post_hook ::= Z.to_euclidean_division_equations.

Lemma below_64 (n : N) : (n < 64)%N -> In n (map N.of_nat (seq 0 64)).
Proof.
  intros H. replace n with (N.of_nat (N.to_nat n)) by apply N2Nat.id.
  apply in_map, in_seq. lia.
Qed.

Lemma b64_value_digit (n : N) :
  (n < 64)%N ->
  b64_value (Base64.digit n) = Some n /\ Ascii.eqb (Base64.digit n) "=" = false.
Proof.
  intros H. apply below_64 in H. simpl in H.
  repeat (destruct H as [<- | H]; [split; reflexivity |]). destruct H.
Qed.

Lemma byte_split (x y z : N) :
  (x < 256 -> y < 256 -> z < 256 ->
   x / 4 < 64 /\ x mod 4 * 16 + y / 16 < 64 /\ y mod 16 * 4 + z / 64 < 64 /\
   z mod 64 < 64 /\ x mod 4 * 16 < 64 /\ y mod 16 * 4 < 64 /\
   x / 4 * 4 + (x mod 4 * 16 + y / 16) / 16 = x /\
   (x mod 4 * 16 + y / 16) mod 16 * 16 + (y mod 16 * 4 + z / 64) / 4 = y /\
   (y mod 16 * 4 + z / 64) mod 4 * 64 + z mod 64 = z /\
   x / 4 * 4 + (x mod 4 * 16) / 16 = x /\
   (x mod 4 * 16 + y / 16) mod 16 * 16 + (y mod 16 * 4) / 4 = y)%N.
Proof. intros Hx Hy Hz. repeat split; lia. Qed.

Lemma b64decode_group (x y z : ascii) (t : string) (rest : string) :
  b64decode (Base64.b64encode t) = Some rest ->
  b64decode (Base64.b64encode (String x (String y (String z t))))
  = Some (String x (String y (String z rest))).
Proof.
  intros IH.
  pose proof (byte_split _ _ _ (N_ascii_bounded x) (N_ascii_bounded y) (N_ascii_bounded z))
    as (H0 & H1 & H2 & H3 & _ & _ & Ex & Ey & Ez & _).
  change (Base64.b64encode (String x (String y (String z t)))) with
    (String (Base64.digit (N_of_ascii x / 4))
       (String (Base64.digit (N_of_ascii x mod 4 * 16 + N_of_ascii y / 16))
          (String (Base64.digit (N_of_ascii y mod 16 * 4 + N_of_ascii z / 64))
             (String (Base64.digit (N_of_ascii z mod 64)) (Base64.b64encode t))))).
  cbn [b64decode].
  destruct (b64_value_digit _ H0) as [-> _].
  destruct (b64_value_digit _ H1) as [-> _].
  destruct (b64_value_digit _ H2) as [-> _].
  destruct (b64_value_digit _ H3) as [-> ->].
  rewrite IH, Ex, Ey, Ez, !ascii_N_embedding. reflexivity.
Qed.

Lemma b64decode_b64encode (b : string) : b64decode (Base64.b64encode b) = Some b.
Proof.
  assert (H : forall n b, String.length b <= n -> b64decode (Base64.b64encode b) = Some b).
  { clear b. induction n as [|n IH]; intros b Hlen.
    - destruct b; [reflexivity | simpl in Hlen; lia].
    - destruct b as [|x [|y [|z t]]].
      + reflexivity.
      + pose proof (byte_split _ 0 0 (N_ascii_bounded x) eq_refl eq_refl)
          as (H0 & _ & _ & _ & H1 & _ & _ & _ & _ & Ex & _).
        change (Base64.b64encode (String x "")) with
          (String (Base64.digit (N_of_ascii x / 4))
             (String (Base64.digit (N_of_ascii x mod 4 * 16)) "==")).
        cbn [b64decode].
        destruct (b64_value_digit _ H0) as [-> _].
        destruct (b64_value_digit _ H1) as [-> _].
        simpl. now rewrite Ex, ascii_N_embedding.
      + pose proof (byte_split _ _ 0 (N_ascii_bounded x) (N_ascii_bounded y) eq_refl)
          as (H0 & H1 & _ & _ & _ & H2 & _ & _ & _ & _ & Ey).
        pose proof (byte_split _ _ 0 (N_ascii_bounded x) (N_ascii_bounded y) eq_refl)
          as (_ & _ & _ & _ & _ & _ & Ex & _).
        change (Base64.b64encode (String x (String y ""))) with
          (String (Base64.digit (N_of_ascii x / 4))
             (String (Base64.digit (N_of_ascii x mod 4 * 16 + N_of_ascii y / 16))
                (String (Base64.digit (N_of_ascii y mod 16 * 4)) "="))).
        cbn [b64decode].
        destruct (b64_value_digit _ H0) as [-> _].
        destruct (b64_value_digit _ H1) as [-> _].
        destruct (b64_value_digit _ H2) as [-> ->].
        simpl. now rewrite Ex, Ey, !ascii_N_embedding.
      + apply b64decode_group, IH. simpl in Hlen. lia. }
  now apply (H (String.length b)).
Qed.

Lemma b64encode_length (b : string) :
  String.length (Base64.b64encode b) = b64_length (String.length b).
Proof.
  assert (H : forall n b, String.length b <= n ->
                          String.length (Base64.b64encode b) = b64_length (String.length b)).
  { clear b. induction n as [|n IH]; intros b Hlen.
    - destruct b; [reflexivity | simpl in Hlen; lia].
    - destruct b as [|x [|y [|z t]]]; try reflexivity.
      change (Base64.b64encode (String x (String y (String z t)))) with
        (String (Base64.digit (N_of_ascii x / 4))
           (String (Base64.digit (N_of_ascii x mod 4 * 16 + N_of_ascii y / 16))
              (String (Base64.digit (N_of_ascii y mod 16 * 4 + N_of_ascii z / 64))
                 (String (Base64.digit (N_of_ascii z mod 64)) (Base64.b64encode t))))).
      cbn [String.length]. rewrite IH by (simpl in Hlen; lia).
      unfold b64_length. 
      replace (S (S (S (String.length t))) + 2) with (String.length t + 2 + 1 * 3) by lia.
      rewrite Nat.div_add by lia. lia. }
  now apply (H (String.length b)).
Qed.

(** ** More on the handlers *)

Section HandlerFacts2.
Variable E : env.

(** Preview and health never call the renderer and never change the file
    system, whatever the request; health always answers 200 "healthy" with
    the clock reading; preview answers 400 on null or an empty object, 500
    with the message on refused JSON, and on a non-empty attribute set (of
    strings) 200 with exactly the composer's document. *)
Theorem preview_and_health_read_only (r : request) (w : world) :
  let p := preview_certificate E r w in
  let h := health_check E w in
  files p.2 = files w /\ renderer_calls p.2 = renderer_calls w /\
  files h.2 = files w /\ renderer_calls h.2 = renderer_calls w /\
  (exists resp, h.1 = Ret resp /\ status_of resp = 200 /\
                field "status" resp = Some (JStr "healthy") /\
                field "timestamp" resp
                = Some (JStr (Clock.isoformat (time_at E (clock_reads w))))) /\
  match r with
  | Object data =>
    if bool_decide (data = ∅) then p.1 = Ret no_data_response
    else exists resp, p.1 = Ret resp /\ status_of resp = 200 /\
                      field "html_content" resp = Some (JStr (html_of E data w))
  | Null => p.1 = Ret no_data_response
  | BadJson e => p.1 = Ret (failure_response "preview" e)
  end.
Proof.
  cbv zeta. split; [| split]; [| | split; [reflexivity | split; [reflexivity |]]].
  - destruct r as [e | | d]; try reflexivity.
    destruct (decide (d = ∅)) as [-> | Hne]; [reflexivity |].
    now rewrite preview_certificate_run.
  - destruct r as [e | | d]; try reflexivity.
    destruct (decide (d = ∅)) as [-> | Hne]; [reflexivity |].
    now rewrite preview_certificate_run.
  - split; [eexists; repeat split |].
    destruct r as [e | | d]; try reflexivity.
    case_bool_decide as Hd; [subst d; reflexivity |].
    rewrite preview_certificate_run by exact Hd. eexists. repeat split.
Qed.

(** On the same non-empty attribute set, environment and world, generate
    and generate-file either both fail with the same 500 response (the
    pipeline raised), or the pipeline returned a PDF: then generate answers
    200 with a "pdf_base64" field that decodes to those bytes, and
    generate-file sends the same bytes under the name that carries the same
    identifier part and the clock reading taken after rendering, unless
    [send_file] refuses that name, in which case generate-file answers 500
    with the message of [send_file]. *)
Theorem generate_and_file_agree (data : attrs) (w : world) :
  data <> ∅ ->
  let id := default "unknown" (data !! "certificate_id") in
  let t := time_at E (S (clock_reads w)) in
  let name := "certificate_" ++ id ++ "_" ++ Clock.strftime_compact t ++ ".pdf" in
  (exists e,
     (generate_certificate E (Object data) w).1 = Ret (failure_response "certificate" e) /\
     (generate_certificate_file E (Object data) w).1 = Ret (failure_response "certificate" e))
  \/
  (exists pdf b64,
     (exists resp, (generate_certificate E (Object data) w).1 = Ret resp /\
                   status_of resp = 200 /\
                   field "pdf_base64" resp = Some (JStr b64) /\
                   field "filename" resp = Some (JStr ("certificate_" ++ id ++ ".pdf")) /\
                   field "generated_at" resp = Some (JStr (Clock.isoformat t))) /\
     b64decode b64 = Some pdf /\
     String.length b64 = b64_length (String.length pdf) /\
     (generate_certificate_file E (Object data) w).1 =
     Ret (match send_file_error E name with
          | None => SendFile pdf name "application/pdf"
          | Some e => failure_response "certificate" e
          end)).
Proof.
  intros Hne id t name.
  rewrite generate_certificate_run, generate_certificate_file_run by exact Hne.
  destruct (pipeline E data w).1 as [pdf | e].
  - right. exists pdf, (Base64.b64encode pdf).
    split; [eexists; repeat split |].
    split; [apply b64decode_b64encode |]. split; [apply b64encode_length |].
    unfold file_response. fold name.
    change (download_name E data w) with name.
    now destruct (send_file_error E name).
  - left. exists e. split; reflexivity.
Qed.

End HandlerFacts2.

Lemma two_line_id_nonempty : two_line_id <> ∅.
Proof. intros H. apply (f_equal (lookup "certificate_id")) in H. discriminate H. Qed.

Lemma generate_and_file_agree_witness :
  (exists pdf b64,
     (generate_certificate_file (sample_env pdf_ok None) (Object sample_data) world0).1
     = Ret (SendFile pdf "certificate_CERT-TEST-1_20240315_143000.pdf" "application/pdf") /\
     b64decode b64 = Some pdf) /\
  (exists resp,
     (generate_certificate strict_send_file_env (Object two_line_id) world0).1 = Ret resp /\
     status_of resp = 200) /\
  (generate_certificate_file strict_send_file_env (Object two_line_id) world0).1
  = Ret (failure_response "certificate"
           "Detected newline in header value. This is a potential security problem").
Proof.
  split; [| split].
  - destruct (generate_and_file_agree (sample_env pdf_ok None) sample_data world0
                sample_data_nonempty)
      as [(e & H & _) | (pdf & b64 & _ & H2 & _ & H4)].
    + vm_compute in H. discriminate H.
    + exists pdf, b64. split; [| exact H2].
      etransitivity; [exact H4 | vm_compute; reflexivity].
  - destruct (generate_and_file_agree strict_send_file_env two_line_id world0
                two_line_id_nonempty)
      as [(e & H & _) | (pdf & b64 & (resp & H1 & H2 & _) & _)].
    + vm_compute in H. discriminate H.
    + exists resp. split; [exact H1 | exact H2].
  - destruct (generate_and_file_agree strict_send_file_env two_line_id world0
                two_line_id_nonempty)
      as [(e & H & _) | (pdf & b64 & _ & _ & _ & H4)].
    + vm_compute in H. discriminate H.
    + etransitivity; [exact H4 | vm_compute; reflexivity].
Defined.
